(** * vyos.ifconfig.dhcp: the DHCP / DHCPv6 client supervisor

    A shallow embedding of [python/vyos/ifconfig/dhcp.py] (class [DHCP]) and
    the properties of its start and stop paths.

    The module renders a dhclient configuration with jinja2, writes it to
    disk, and launches or stops dhclient through the primitives inherited
    from [vyos.ifconfig.control.Control].  The embedding threads an explicit
    state (the [DHCP] object, the disk, and a log of the primitive calls made)
    through an exception monad. *)

From Stdlib Require Import ZArith Ascii String.
From stdpp Require Import base gmap strings list.


(** ** Python values held in the option dictionaries *)

(** The option dictionaries built by [DHCP.__init__] hold strings and
    booleans. *)
Inductive pyval :=
| PStr (s : string)
| PBool (b : bool).

(** Python truthiness ([if v], [not v]). *)
Definition truthy (v : pyval) : bool :=
  match v with
  | PStr s => negb (String.eqb s "")
  | PBool b => b
  end.

(** Python [str(v)], which is what jinja2 prints for [{{ v }}]. *)
Definition py_str (v : pyval) : string :=
  match v with
  | PStr s => s
  | PBool true => "True"
  | PBool false => "False"
  end.

(** ** Exceptions *)

Inductive exn :=
| KeyError (key : string)
| OSError (path : string)
| Exception (msg : string)
| ValueError (msg : string)
| TemplateSyntaxError
| ExternalError (what : string).

Inductive result (A : Type) :=
| Ok (a : A)
| Raise (e : exn).
Arguments Ok {A} a.
Arguments Raise {A} e.

(** ** Characters and strings *)

Definition nl : ascii := Ascii.ascii_of_nat 10.

(** jinja2 whitespace control strips what the regular expression [\s]
    matches. *)
Definition is_space (c : ascii) : bool :=
  let n := Ascii.nat_of_ascii c in
  (n =? 32)%nat || ((9 <=? n)%nat && (n <=? 13)%nat).

(** [s.rstrip('\n')]: drop every trailing newline. *)
Fixpoint rstrip_nl (s : string) : string :=
  match s with
  | EmptyString => EmptyString
  | String c s' =>
      match rstrip_nl s' with
      | EmptyString => if Ascii.eqb c nl then EmptyString else String c EmptyString
      | r => String c r
      end
  end.

Fixpoint lstrip_space (s : string) : string :=
  match s with
  | EmptyString => EmptyString
  | String c s' => if is_space c then lstrip_space s' else s
  end.

Fixpoint rstrip_space (s : string) : string :=
  match s with
  | EmptyString => EmptyString
  | String c s' =>
      match rstrip_space s' with
      | EmptyString => if is_space c then EmptyString else String c EmptyString
      | r => String c r
      end
  end.

(** The double quote character, as a one-character string. *)
Definition dq : string := String (Ascii.ascii_of_nat 34) EmptyString.

(** [snoc s c] appends one character. *)
Definition snoc (s : string) (c : ascii) : string :=
  String.append s (String c EmptyString).

(** Join lines with a newline between them (the layout of a Python
    triple-quoted literal). *)
Fixpoint unlines (ls : list string) : string :=
  match ls with
  | [] => EmptyString
  | [l] => l
  | l :: ls' => String.append l (String nl (unlines ls'))
  end.

(** Split on whitespace, dropping empty words ([str.split()]). *)
Fixpoint words_from (cur : string) (s : string) : list string :=
  match s with
  | EmptyString => if String.eqb cur "" then [] else [cur]
  | String c s' =>
      if is_space c
      then (if String.eqb cur "" then words_from "" s' else cur :: words_from "" s')
      else words_from (snoc cur c) s'
  end.

Definition words (s : string) : list string := words_from "" s.

(** ** The jinja2 subset used by the templates

    The templates use three constructs: [{{ name }}], [{% if name -%}] and
    [{% endif -%}].  The engine below lexes the template source into data
    and tags, applies jinja2's whitespace control (a [-] next to a delimiter
    strips the whitespace on that side) and renders, with jinja2's defaults:
    no autoescaping, undefined names print as the empty string and are
    false, and a single trailing newline of the source is dropped
    ([keep_trailing_newline=False]). *)

Definition result_map {A B} (f : A -> B) (r : result A) : result B :=
  match r with
  | Ok a => Ok (f a)
  | Raise e => Raise e
  end.

Definition result_bind {A B} (r : result A) (f : A -> result B) : result B :=
  match r with
  | Ok a => f a
  | Raise e => Raise e
  end.

Inductive raw :=
| RData (s : string)
| RVar (inner : string)
| RBlock (inner : string).

Inductive lex_mode := InData | InVar | InBlock.

Definition is_char (c : ascii) (lit : string) : bool :=
  String.eqb (String c EmptyString) lit.

Fixpoint lex (m : lex_mode) (buf : string) (s : string) : result (list raw) :=
  match s with
  | EmptyString =>
      match m with
      | InData => Ok [RData buf]
      | _ => Raise TemplateSyntaxError
      end
  | String c s' =>
      match s' with
      | EmptyString => lex m (snoc buf c) s'
      | String d s'' =>
          match m with
          | InData =>
              if is_char c "{" && is_char d "{"
              then result_map (cons (RData buf)) (lex InVar "" s'')
              else if is_char c "{" && is_char d "%"
              then result_map (cons (RData buf)) (lex InBlock "" s'')
              else lex InData (snoc buf c) s'
          | InVar =>
              if is_char c "}" && is_char d "}"
              then result_map (cons (RVar buf)) (lex InData "" s'')
              else lex InVar (snoc buf c) s'
          | InBlock =>
              if is_char c "%" && is_char d "}"
              then result_map (cons (RBlock buf)) (lex InData "" s'')
              else lex InBlock (snoc buf c) s'
          end
      end
  end.

(** Whitespace-control marks of a tag body: a leading [-], a trailing [-],
    and the body without them. *)
Definition starts_minus (inner : string) : bool :=
  match inner with
  | String c _ => is_char c "-"
  | EmptyString => false
  end.

Fixpoint ends_minus (inner : string) : bool :=
  match inner with
  | EmptyString => false
  | String c EmptyString => is_char c "-"
  | String _ s' => ends_minus s'
  end.

Fixpoint drop_last (s : string) : string :=
  match s with
  | EmptyString => EmptyString
  | String _ EmptyString => EmptyString
  | String c s' => String c (drop_last s')
  end.

Definition tag_body (inner : string) : string :=
  let a := if starts_minus inner
           then match inner with String _ r => r | EmptyString => EmptyString end
           else inner in
  if ends_minus a then drop_last a else a.

Inductive jtok :=
| JData (s : string)
| JVar (name : string)
| JIf (name : string)
| JEndif.

Definition next_strips_left (rs : list raw) : bool :=
  match rs with
  | RVar i :: _ | RBlock i :: _ => starts_minus i
  | _ => false
  end.

Fixpoint control (prev_r : bool) (rs : list raw) : result (list jtok) :=
  match rs with
  | [] => Ok []
  | RData s :: rest =>
      let s1 := if prev_r then lstrip_space s else s in
      let s2 := if next_strips_left rest then rstrip_space s1 else s1 in
      result_map (cons (JData s2)) (control false rest)
  | RVar inner :: rest =>
      match words (tag_body inner) with
      | [x] => result_map (cons (JVar x)) (control (ends_minus inner) rest)
      | _ => Raise TemplateSyntaxError
      end
  | RBlock inner :: rest =>
      match words (tag_body inner) with
      | [kw; x] =>
          if String.eqb kw "if"
          then result_map (cons (JIf x)) (control (ends_minus inner) rest)
          else Raise TemplateSyntaxError
      | [kw] =>
          if String.eqb kw "endif"
          then result_map (cons JEndif) (control (ends_minus inner) rest)
          else Raise TemplateSyntaxError
      | _ => Raise TemplateSyntaxError
      end
  end.

(** [keep_trailing_newline=False]: one final newline of the source is
    dropped before lexing. *)
Fixpoint drop_final_nl (s : string) : string :=
  match s with
  | EmptyString => EmptyString
  | String c EmptyString => if Ascii.eqb c nl then EmptyString else s
  | String c s' => String c (drop_final_nl s')
  end.

(** [jinja2.Template(source)] *)
Definition Template (source : string) : result (list jtok) :=
  result_bind (lex InData "" (drop_final_nl source)) (control false).

(** The value of a name in the render context; undefined names are
    [None]. *)
Definition ctx_get (ctx : gmap string pyval) (x : string) : option pyval :=
  ctx !! x.

Definition ctx_str (ctx : gmap string pyval) (x : string) : string :=
  match ctx_get ctx x with
  | Some v => py_str v
  | None => ""
  end.

Definition ctx_test (ctx : gmap string pyval) (x : string) : bool :=
  match ctx_get ctx x with
  | Some v => truthy v
  | None => false
  end.

(** Rendering walks the tokens with the stack of enclosing [if] tests;
    output is produced only where every enclosing test holds. *)
Fixpoint render_toks (ctx : gmap string pyval) (stack : list bool)
    (ts : list jtok) : result string :=
  match ts with
  | [] =>
      match stack with
      | [] => Ok ""
      | _ => Raise TemplateSyntaxError
      end
  | JData s :: r =>
      result_map (fun out => if forallb id stack then String.append s out else out)
        (render_toks ctx stack r)
  | JVar x :: r =>
      result_map
        (fun out => if forallb id stack then String.append (ctx_str ctx x) out else out)
        (render_toks ctx stack r)
  | JIf x :: r => render_toks ctx (ctx_test ctx x :: stack) r
  | JEndif :: r =>
      match stack with
      | [] => Raise TemplateSyntaxError
      | _ :: st => render_toks ctx st r
      end
  end.

(** [jinja2.Template(source).render(ctx)] *)
Definition render (source : string) (ctx : gmap string pyval) : result string :=
  result_bind (Template source) (render_toks ctx []).

(** ** The templates of the module *)

Definition template_v4 : string := unlines [
  "";
  "# generated by ifconfig.py";
  "option rfc3442-classless-static-routes code 121 = array of unsigned integer 8;";
  "timeout 60;";
  "retry 300;";
  "";
  "interface " +:+ dq +:+ "{{ intf }}" +:+ dq +:+ " {";
  "    send host-name " +:+ dq +:+ "{{ hostname }}" +:+ dq +:+ ";";
  "    {% if client_id -%}";
  "    send dhcp-client-identifier " +:+ dq +:+ "{{ client_id }}" +:+ dq +:+ ";";
  "    {% endif -%}";
  "    {% if vendor_class_id -%}";
  "    send vendor-class-identifier " +:+ dq +:+ "{{ vendor_class_id }}" +:+ dq +:+ ";";
  "    {% endif -%}";
  "    request subnet-mask, broadcast-address, routers, domain-name-servers,";
  "        rfc3442-classless-static-routes, domain-name, interface-mtu;";
  "    require subnet-mask;";
  "}";
  "";
  "" ].

Definition template_v6 : string := unlines [
  "";
  "# generated by ifconfig.py";
  "interface " +:+ dq +:+ "{{ intf }}" +:+ dq +:+ " {";
  "    request routers, domain-name-servers, domain-name;";
  "}";
  "";
  "" ].

(** ** [str.format] with named fields

    [tpl.format] applied to keyword arguments: a [{name}] field is replaced by the argument
    of that name; doubled braces are literal braces. *)

Fixpoint format_from (field : option string) (tpl : string)
    (kw : string -> option string) : result string :=
  match tpl with
  | EmptyString =>
      match field with
      | None => Ok ""
      | Some _ => Raise (ValueError "expected '}' before end of string")
      end
  | String c tpl' =>
      match field with
      | Some name =>
          if is_char c "}"
          then match kw name with
               | Some v => result_map (String.append v) (format_from None tpl' kw)
               | None => Raise (KeyError name)
               end
          else format_from (Some (snoc name c)) tpl' kw
      | None =>
          match tpl' with
          | String d tpl'' =>
              if (is_char c "{" && is_char d "{") || (is_char c "}" && is_char d "}")
              then result_map (String c) (format_from None tpl'' kw)
              else if is_char c "{" then format_from (Some "") tpl' kw
              else if is_char c "}"
              then Raise (ValueError "Single '}' encountered in format string")
              else result_map (String c) (format_from None tpl' kw)
          | EmptyString =>
              if is_char c "{" then format_from (Some "") tpl' kw
              else if is_char c "}"
              then Raise (ValueError "Single '}' encountered in format string")
              else result_map (String c) (format_from None tpl' kw)
          end
      end
  end.

Definition format (tpl : string) (kw : string -> option string) : result string :=
  format_from None tpl kw.

(** ** The [DHCP] object *)

(** The keys of [self._dhcp]. *)
Inductive ipver := V4 | V6.

(** [self._dhcp[4]] *)
Record entry4 := {
  ifname4 : string;
  conf4 : string;
  pid4 : string;
  lease4 : string;
  options4 : gmap string pyval;
}.

(** [self._dhcp[6]] *)
Record entry6 := {
  ifname6 : string;
  conf6 : string;
  pid6 : string;
  lease6 : string;
  accept_ra6 : string;
  options6 : gmap string pyval;
}.

(** The instance.  The two option entries hold references to dict objects;
    [shared_options] records whether they hold one and the same object
    (Python object identity), in which case an assignment through one entry
    shows through the other.  [options4] and [options6] are the content
    seen through each entry. *)
Record DHCP := {
  dhcp4 : entry4;
  dhcp6 : entry6;
  shared_options : bool;
}.

Definition client_base : string := "/var/lib/dhcp/dhclient_".

Definition __init__ (ifname : string) : DHCP :=
  {| dhcp4 :=
       {| ifname4 := ifname;
          conf4 := client_base +:+ ifname +:+ ".conf";
          pid4 := client_base +:+ ifname +:+ ".pid";
          lease4 := client_base +:+ ifname +:+ ".leases";
          options4 :=
            <["intf" := PStr ifname]>
              (<["hostname" := PStr ""]>
                 (<["client_id" := PStr ""]>
                    (<["vendor_class_id" := PStr ""]> ∅))) |};
     dhcp6 :=
       {| ifname6 := ifname;
          conf6 := client_base +:+ ifname +:+ ".v6conf";
          pid6 := client_base +:+ ifname +:+ ".v6pid";
          lease6 := client_base +:+ ifname +:+ ".v6leases";
          accept_ra6 := "/proc/sys/net/ipv6/conf/" +:+ ifname +:+ "/accept_ra";
          options6 :=
            <["intf" := PStr ifname]>
              (<["dhcpv6_prm_only" := PBool false]>
                 (<["dhcpv6_temporary" := PBool false]> ∅)) |};
     shared_options := false |}.

(** The keyword arguments unpacked from [self._dhcp[4]] and [self._dhcp[6]] as seen by
    [str.format]: the string-valued keys (the command templates never name
    [options]). *)
Definition kwargs4 (e : entry4) (name : string) : option string :=
  if String.eqb name "ifname" then Some (ifname4 e)
  else if String.eqb name "conf" then Some (conf4 e)
  else if String.eqb name "pid" then Some (pid4 e)
  else if String.eqb name "lease" then Some (lease4 e)
  else None.

Definition kwargs6 (e : entry6) (name : string) : option string :=
  if String.eqb name "ifname" then Some (ifname6 e)
  else if String.eqb name "conf" then Some (conf6 e)
  else if String.eqb name "pid" then Some (pid6 e)
  else if String.eqb name "lease" then Some (lease6 e)
  else if String.eqb name "accept_ra" then Some (accept_ra6 e)
  else None.

(** ** The disk *)

(** What a path names: a regular file, a directory, or a node that is
    neither (a device, a FIFO), which [open] reads and writes without error
    and [os.remove] unlinks, but which [os.path.isfile] does not count as a
    file.  [content] is what reading the node gives. *)
Inductive node :=
| File (content : string)
| Dir
| Special (content : string).

(** [nodes] maps a path to what is there; [denied] is the set of paths the
    operating system refuses to create, truncate or unlink (read-only
    mount, immutable attribute, missing permission). *)
Record disk := {
  nodes : gmap string node;
  denied : gset string;
}.

(** [os.path.isfile] *)
Definition isfile (p : string) (d : disk) : bool :=
  match nodes d !! p with
  | Some (File _) => true
  | _ => false
  end.

(** ** The primitives of [vyos.ifconfig.control.Control]

    [DHCP] inherits [_cmd] and [_write_sysfs] from [Control], which is not
    part of this module: what they do to the disk, what they return and
    whether they raise is a parameter of the development. *)
Class Control := {
  cmd_effect : string -> disk -> result string * disk;
  write_sysfs_effect : string -> Z -> disk -> result bool * disk;
}.

(** ** State and the monad of the methods *)

(** The log records, in order, the primitive calls a method made: every
    [_cmd] and [_write_sysfs] call (whatever its outcome), every
    [_debug_msg], and every file write and removal that took place. *)
Inductive event :=
| EvCmd (command : string)
| EvSysfs (path : string) (value : Z)
| EvDebug (msg : string)
| EvWrite (path : string) (text : string)
| EvRemove (path : string).

Record state := {
  self : DHCP;
  fs : disk;
  log : list event;
}.

Definition M (A : Type) : Type := state -> result A * state.

Definition ret {A} (a : A) : M A := fun st => (Ok a, st).

Definition raise {A} (e : exn) : M A := fun st => (Raise e, st).

Definition bind {A B} (m : M A) (k : A -> M B) : M B :=
  fun st =>
    match m st with
    | (Ok a, st') => k a st'
    | (Raise e, st') => (Raise e, st')
    end.

#[global] Instance M_ret : MRet M := @ret.
#[global] Instance M_bind : MBind M := fun A B k m => bind m k.

Definition lift {A} (r : result A) : M A := fun st => (r, st).

Definition get_self : M DHCP := fun st => (Ok (self st), st).

Definition emit (e : event) : M unit :=
  fun st => (Ok tt, {| self := self st; fs := fs st; log := log st ++ [e] |}).

(** [d[k]] on a dictionary. *)
Definition getitem (d : gmap string pyval) (k : string) : M pyval :=
  match d !! k with
  | Some v => ret v
  | None => raise (KeyError k)
  end.

Section Primitives.
Context `{Control}.

(** [self._cmd(command)] *)
Definition _cmd (command : string) : M string :=
  fun st =>
    let '(r, d) := cmd_effect command (fs st) in
    (r, {| self := self st; fs := d; log := log st ++ [EvCmd command] |}).

(** [self._write_sysfs(filename, value)] *)
Definition _write_sysfs (filename : string) (value : Z) : M bool :=
  fun st =>
    let '(r, d) := write_sysfs_effect filename value (fs st) in
    (r, {| self := self st; fs := d; log := log st ++ [EvSysfs filename value] |}).
End Primitives.

(** Modelled from the spec: [_debug_msg] of [vyos.ifconfig.control.Control]
    is not part of this module; the stop operation "logs/reports" through it
    and returns, so it only records the message. *)
Definition _debug_msg (msg : string) : M unit := emit (EvDebug msg).

(** [os.path.isfile(p)] *)
Definition os_path_isfile (p : string) : M bool :=
  fun st => (Ok (isfile p (fs st)), st).

(** [os.remove(p)]: unlinks what [p] names; raises [OSError] when there is
    nothing at [p], when [p] is a directory, or when the unlink is refused. *)
Definition os_remove (p : string) : M unit :=
  fun st =>
    match nodes (fs st) !! p with
    | Some (File _) | Some (Special _) =>
        if bool_decide (p ∈ denied (fs st))
        then (Raise (OSError p), st)
        else (Ok tt,
              {| self := self st;
                 fs := {| nodes := delete p (nodes (fs st)); denied := denied (fs st) |};
                 log := log st ++ [EvRemove p] |})
    | Some Dir | None => (Raise (OSError p), st)
    end.

(** The nodes after [text] was written to [p]: a regular file with that
    content, unless [p] names a special node, which takes the text and stays
    what it is. *)
Definition put (p text : string) (ns : gmap string node) : gmap string node :=
  match ns !! p with
  | Some (Special _) => ns
  | _ => <[p := File text]> ns
  end.

(** [with open(p, 'w') as f: f.write(text)]: creates or truncates the file;
    raises [OSError] when [p] is a directory or the open is refused. *)
Definition write_file (p : string) (text : string) : M unit :=
  fun st =>
    match nodes (fs st) !! p with
    | Some Dir => (Raise (OSError p), st)
    | _ =>
        if bool_decide (p ∈ denied (fs st))
        then (Raise (OSError p), st)
        else (Ok tt,
              {| self := self st;
                 fs := {| nodes := put p text (nodes (fs st));
                          denied := denied (fs st) |};
                 log := log st ++ [EvWrite p text] |})
    end.

(** [with open(p, 'r') as f: f.read()]: the text read; raises [OSError]
    when there is nothing at [p] or [p] is a directory. *)
Definition read_file (p : string) : M string :=
  fun st =>
    match nodes (fs st) !! p with
    | Some (File c) | Some (Special c) => (Ok c, st)
    | Some Dir | None => (Raise (OSError p), st)
    end.

(** ** The methods of [DHCP] *)

Definition get_dhcp_options : M (gmap string pyval) :=
  fun st => (Ok (options4 (dhcp4 (self st))), st).

Definition set_options4 (options : gmap string pyval) (o : DHCP) : DHCP :=
  {| dhcp4 :=
       {| ifname4 := ifname4 (dhcp4 o); conf4 := conf4 (dhcp4 o);
          pid4 := pid4 (dhcp4 o); lease4 := lease4 (dhcp4 o);
          options4 := options |};
     dhcp6 := dhcp6 o;
     shared_options := shared_options o |}.

Definition set_options6 (options : gmap string pyval) (o : DHCP) : DHCP :=
  {| dhcp4 := dhcp4 o;
     dhcp6 :=
       {| ifname6 := ifname6 (dhcp6 o); conf6 := conf6 (dhcp6 o);
          pid6 := pid6 (dhcp6 o); lease6 := lease6 (dhcp6 o);
          accept_ra6 := accept_ra6 (dhcp6 o);
          options6 := options |};
     shared_options := shared_options o |}.

Definition set_shared (b : bool) (o : DHCP) : DHCP :=
  {| dhcp4 := dhcp4 o; dhcp6 := dhcp6 o; shared_options := b |}.

(** A dict object passed to a setter.  Python passes a reference and the
    setter stores that reference, so what matters afterwards is whether the
    object is one the instance already holds.  [Dict d] is an object the
    instance does not hold, of content [d]; [Stored v] is the object held in
    [self._dhcp[v]['options']], the one the getter of that version returns.
    One new dict given to both setters is [Dict d] for the first call and
    [Stored] of that version for the second. *)
Inductive pydict :=
| Dict (d : gmap string pyval)
| Stored (v : ipver).

(** [self._dhcp[4]['options'] = options] *)
Definition set_dhcp_options (options : pydict) : M unit :=
  fun st =>
    let o := self st in
    (Ok tt,
     {| self :=
          match options with
          | Dict d => set_shared false (set_options4 d o)
          | Stored V4 => o
          | Stored V6 => set_shared true (set_options4 (options6 (dhcp6 o)) o)
          end;
        fs := fs st; log := log st |}).

Definition get_dhcpv6_options : M (gmap string pyval) :=
  fun st => (Ok (options6 (dhcp6 (self st))), st).

(** [self._dhcp[6]['options'] = options] *)
Definition set_dhcpv6_options (options : pydict) : M unit :=
  fun st =>
    let o := self st in
    (Ok tt,
     {| self :=
          match options with
          | Dict d => set_shared false (set_options6 d o)
          | Stored V6 => o
          | Stored V4 => set_shared true (set_options6 (options4 (dhcp4 o)) o)
          end;
        fs := fs st; log := log st |}).

(** The instance after [dhcp[k] = v], where [dhcp] is the dict object held
    in [self._dhcp[4]['options']]: the assignment changes that object, so
    it shows in the v6 options too when both entries hold it. *)
Definition assign_options4 (k : string) (v : pyval) (o : DHCP) : DHCP :=
  let o' := set_options4 (<[k := v]> (options4 (dhcp4 o))) o in
  if shared_options o
  then set_options6 (<[k := v]> (options6 (dhcp6 o))) o'
  else o'.

(** [dhcp['hostname'] = v] *)
Definition setitem_options4 (k : string) (v : pyval) : M unit :=
  fun st =>
    (Ok tt, {| self := assign_options4 k v (self st); fs := fs st; log := log st |}).

(** [for name in names: if os.path.isfile(path[name]): os.remove(path[name])] *)
Fixpoint cleanup (paths : list string) : M unit :=
  match paths with
  | [] => mret tt
  | p :: rest =>
      present ← os_path_isfile p;
      (if present : bool then os_remove p else mret tt);;
      cleanup rest
  end.

Section Methods.
Context `{Control}.

Definition _set_dhcp : M string :=
  dhcp ← get_dhcp_options;
  hostname ← getitem dhcp "hostname";
  (if negb (truthy hostname)
   then text ← read_file "/etc/hostname";
        setitem_options4 "hostname" (PStr (rstrip_nl text))
   else mret tt);;
  dhcp ← get_dhcp_options;
  dhcp_text ← lift (render template_v4 dhcp);
  o ← get_self;
  write_file (conf4 (dhcp4 o)) dhcp_text;;
  let cmd := "start-stop-daemon" in
  let cmd := cmd +:+ " --start" in
  let cmd := cmd +:+ " --oknodo" in
  let cmd := cmd +:+ " --quiet" in
  let cmd := cmd +:+ " --pidfile {pid}" in
  let cmd := cmd +:+ " --exec /sbin/dhclient" in
  let cmd := cmd +:+ " --" in
  let cmd := cmd +:+ " -4 -nw -cf {conf} -pf {pid} -lf {lease} {ifname}" in
  line ← lift (format cmd (kwargs4 (dhcp4 o)));
  _cmd line.

Definition _del_dhcp : M unit :=
  o ← get_self;
  running ← os_path_isfile (pid4 (dhcp4 o));
  if negb running
  then _debug_msg "No DHCP client PID found"
  else
    let cmd := "/sbin/dhclient -cf {conf} -pf {pid} -lf {lease} -r {ifname}" in
    line ← lift (format cmd (kwargs4 (dhcp4 o)));
    _cmd line;;
    cleanup [conf4 (dhcp4 o); pid4 (dhcp4 o); lease4 (dhcp4 o)].

Definition _set_dhcpv6 : M string :=
  dhcpv6 ← get_dhcpv6_options;
  prm_only ← getitem dhcpv6 "dhcpv6_prm_only";
  both ← (if truthy prm_only
          then temporary ← getitem dhcpv6 "dhcpv6_temporary"; mret (truthy temporary)
          else mret false);
  (if both : bool
   then raise (Exception
                 "DHCPv6 temporary and parameters-only options are mutually exclusive!")
   else mret tt);;
  dhcpv6_text ← lift (render template_v6 dhcpv6);
  o ← get_self;
  write_file (conf6 (dhcp6 o)) dhcpv6_text;;
  _write_sysfs (accept_ra6 (dhcp6 o)) 0;;
  let cmd := "start-stop-daemon" in
  let cmd := cmd +:+ " --start" in
  let cmd := cmd +:+ " --oknodo" in
  let cmd := cmd +:+ " --quiet" in
  let cmd := cmd +:+ " --pidfile {pid}" in
  let cmd := cmd +:+ " --exec /sbin/dhclient" in
  let cmd := cmd +:+ " --" in
  let cmd := cmd +:+ " -6 -nw -cf {conf} -pf {pid} -lf {lease}" in
  prm_only ← getitem dhcpv6 "dhcpv6_prm_only";
  let cmd := if truthy prm_only then cmd +:+ " -S" else cmd in
  temporary ← getitem dhcpv6 "dhcpv6_temporary";
  let cmd := if truthy temporary then cmd +:+ " -T" else cmd in
  let cmd := cmd +:+ " {ifname}" in
  line ← lift (format cmd (kwargs6 (dhcp6 o)));
  _cmd line.

Definition _del_dhcpv6 : M unit :=
  o ← get_self;
  running ← os_path_isfile (pid6 (dhcp6 o));
  if negb running
  then _debug_msg "No DHCPv6 client PID found"
  else
    let cmd := "start-stop-daemon" in
    let cmd := cmd +:+ " --start" in
    let cmd := cmd +:+ " --oknodo" in
    let cmd := cmd +:+ " --quiet" in
    let cmd := cmd +:+ " --pidfile {pid}" in
    line ← lift (format cmd (kwargs6 (dhcp6 o)));
    _cmd line;;
    _write_sysfs (accept_ra6 (dhcp6 o)) 1;;
    cleanup [conf6 (dhcp6 o); pid6 (dhcp6 o); lease6 (dhcp6 o)].
End Methods.

(** ** Start and stop, by IP version *)

Inductive kind := KConf | KPid | KLease.

(** The path of a kind that the object stores for an IP version. *)
Definition stored_path (o : DHCP) (v : ipver) (k : kind) : string :=
  match v, k with
  | V4, KConf => conf4 (dhcp4 o)
  | V4, KPid => pid4 (dhcp4 o)
  | V4, KLease => lease4 (dhcp4 o)
  | V6, KConf => conf6 (dhcp6 o)
  | V6, KPid => pid6 (dhcp6 o)
  | V6, KLease => lease6 (dhcp6 o)
  end.

Definition extension (v : ipver) (k : kind) : string :=
  match v, k with
  | V4, KConf => ".conf"
  | V4, KPid => ".pid"
  | V4, KLease => ".leases"
  | V6, KConf => ".v6conf"
  | V6, KPid => ".v6pid"
  | V6, KLease => ".v6leases"
  end.

(** The command line of [_set_dhcp]. *)
Definition start4_line (e : entry4) : string :=
  "start-stop-daemon --start --oknodo --quiet --pidfile " +:+ pid4 e
  +:+ " --exec /sbin/dhclient -- -4 -nw -cf " +:+ conf4 e
  +:+ " -pf " +:+ pid4 e +:+ " -lf " +:+ lease4 e +:+ " " +:+ ifname4 e.

(** The command line of [_del_dhcp]. *)
Definition release4_line (e : entry4) : string :=
  "/sbin/dhclient -cf " +:+ conf4 e +:+ " -pf " +:+ pid4 e
  +:+ " -lf " +:+ lease4 e +:+ " -r " +:+ ifname4 e.

(** The command line of [_set_dhcpv6], given whether [-S] and [-T] were
    appended. *)
Definition start6_line (e : entry6) (s t : bool) : string :=
  "start-stop-daemon --start --oknodo --quiet --pidfile " +:+ pid6 e
  +:+ " --exec /sbin/dhclient -- -6 -nw -cf " +:+ conf6 e
  +:+ " -pf " +:+ pid6 e +:+ " -lf " +:+ lease6 e
  +:+ (if s then " -S" else "") +:+ (if t then " -T" else "")
  +:+ " " +:+ ifname6 e.

(** The command line of [_del_dhcpv6]. *)
Definition stop6_line (e : entry6) : string :=
  "start-stop-daemon --start --oknodo --quiet --pidfile " +:+ pid6 e.

Section Lifecycle.
Context `{Control}.

Definition start (v : ipver) : M string :=
  match v with
  | V4 => _set_dhcp
  | V6 => _set_dhcpv6
  end.

Definition stop (v : ipver) : M unit :=
  match v with
  | V4 => _del_dhcp
  | V6 => _del_dhcpv6
  end.

(** The outcome of the external calls that [stop] makes once it has found
    the pid file, before the clean-up loop: whether one of them raised,
    and the disk they leave. *)
Definition stop_calls (v : ipver) (st : state) : result unit * disk :=
  match v with
  | V4 =>
      let r := cmd_effect (release4_line (dhcp4 (self st))) (fs st) in
      (result_map (fun _ => tt) r.1, r.2)
  | V6 =>
      let r := cmd_effect (stop6_line (dhcp6 (self st))) (fs st) in
      match r.1 with
      | Ok _ =>
          let w := write_sysfs_effect (accept_ra6 (dhcp6 (self st))) 1 r.2 in
          (result_map (fun _ => tt) w.1, w.2)
      | Raise x => (Raise x, r.2)
      end
  end.

End Lifecycle.

(** ** Observations *)

(** Run a method for its final state or its result alone. *)
Definition exec {A} (m : M A) (st : state) : state := (m st).2.
Definition eval {A} (m : M A) (st : state) : result A := (m st).1.

(** The command lines handed to [_cmd]. *)
Definition invocations (evs : list event) : list string :=
  omap (fun e => match e with EvCmd c => Some c | _ => None end) evs.

(** The [(path, value)] pairs handed to [_write_sysfs]. *)
Definition sysfs_writes (evs : list event) : list (string * Z) :=
  omap (fun e => match e with EvSysfs p v => Some (p, v) | _ => None end) evs.

(** The [(path, text)] pairs written to files. *)
Definition file_writes (evs : list event) : list (string * string) :=
  omap (fun e => match e with EvWrite p t => Some (p, t) | _ => None end) evs.

(** The events a run from [st] to [st'] appended to the log. *)
Definition added (st st' : state) : list event :=
  drop (length (log st)) (log st').

(** The state after an event was logged and the disk became [d]. *)
Definition after (ev : event) (d : disk) (st : state) : state :=
  {| self := self st; fs := d; log := log st ++ [ev] |}.

(** The state after [p] was unlinked. *)
Definition unlinked (p : string) (st : state) : state :=
  {| self := self st;
     fs := {| nodes := delete p (nodes (fs st)); denied := denied (fs st) |};
     log := log st ++ [EvRemove p] |}.

(** The state after [text] was written to [p]. *)
Definition written (p text : string) (st : state) : state :=
  {| self := self st;
     fs := {| nodes := put p text (nodes (fs st)); denied := denied (fs st) |};
     log := log st ++ [EvWrite p text] |}.

(** The state in which the stored v4 hostname option became [h]. *)
Definition with_hostname (h : string) (st : state) : state :=
  {| self := assign_options4 "hostname" (PStr h) (self st);
     fs := fs st;
     log := log st |}.

(** The state in which [_set_dhcp] renders: [st] itself when the hostname
    option [h] is set, else [st] with the option read from the system
    hostname file. *)
Definition hostname_resolved (h : pyval) (st : state) : result state :=
  if truthy h then Ok st
  else match nodes (fs st) !! "/etc/hostname" with
       | Some (File c) | Some (Special c) => Ok (with_hostname (rstrip_nl c) st)
       | Some Dir | None => Raise (OSError "/etc/hostname")
       end.

(** The operating system refuses to modify [p]. *)
Definition refused (p : string) (d : disk) : bool := bool_decide (p ∈ denied d).

(** [p] can be opened for writing: it is no directory and not refused. *)
Definition writable (p : string) (d : disk) : bool :=
  match nodes d !! p with
  | Some Dir => false
  | _ => negb (refused p d)
  end.

(** A run that only removed files: the object and the refusals are as
    before, no file appeared, and nothing but removals was logged. *)
Record only_removals (st st' : state) : Prop := {
  or_self : self st' = self st;
  or_denied : denied (fs st') = denied (fs st);
  or_isfile : forall q, isfile q (fs st') = true -> isfile q (fs st) = true;
  or_log : exists evs, log st' = log st ++ evs
                       /\ invocations evs = [] /\ sysfs_writes evs = [];
}.

(** ** The rendered configurations, line by line *)

(** The lines of the dhclient configuration for the render context [ctx]:
    the two [send] lines for the client identifier and the vendor class are
    present only when the option is true. *)
Definition conf4_lines (ctx : gmap string pyval) : list string :=
  [ "";
    "# generated by ifconfig.py";
    "option rfc3442-classless-static-routes code 121 = array of unsigned integer 8;";
    "timeout 60;";
    "retry 300;";
    "";
    "interface " +:+ dq +:+ ctx_str ctx "intf" +:+ dq +:+ " {";
    "    send host-name " +:+ dq +:+ ctx_str ctx "hostname" +:+ dq +:+ ";" ]
  ++ (if ctx_test ctx "client_id"
      then [ "    send dhcp-client-identifier " +:+ dq +:+ ctx_str ctx "client_id"
             +:+ dq +:+ ";" ]
      else [])
  ++ (if ctx_test ctx "vendor_class_id"
      then [ "    send vendor-class-identifier " +:+ dq +:+ ctx_str ctx "vendor_class_id"
             +:+ dq +:+ ";" ]
      else [])
  ++ [ "    request subnet-mask, broadcast-address, routers, domain-name-servers,";
       "        rfc3442-classless-static-routes, domain-name, interface-mtu;";
       "    require subnet-mask;";
       "}";
       "" ].

Definition conf6_lines (ctx : gmap string pyval) : list string :=
  [ "";
    "# generated by ifconfig.py";
    "interface " +:+ dq +:+ ctx_str ctx "intf" +:+ dq +:+ " {";
    "    request routers, domain-name-servers, domain-name;";
    "}";
    "" ].

(** [s.split('\n')]: the lines of a text. *)
Fixpoint split_nl_from (cur : string) (s : string) : list string :=
  match s with
  | EmptyString => [cur]
  | String c s' =>
      if Ascii.eqb c nl then cur :: split_nl_from "" s'
      else split_nl_from (snoc cur c) s'
  end.

Definition split_nl (s : string) : list string := split_nl_from "" s.

(** The string holds no newline. *)
Fixpoint no_nl (s : string) : bool :=
  match s with
  | EmptyString => true
  | String c s' => negb (Ascii.eqb c nl) && no_nl s'
  end.

(** A line that, after its indentation, starts with the given statement. *)
Definition line_starts (stmt : string) (l : string) : bool :=
  String.prefix stmt (lstrip_space l).

Definition client_id_line (c : string) : string :=
  "    send dhcp-client-identifier " +:+ dq +:+ c +:+ dq +:+ ";".

Definition vendor_class_line (c : string) : string :=
  "    send vendor-class-identifier " +:+ dq +:+ c +:+ dq +:+ ";".

Definition host_name_line (h : string) : string :=
  "    send host-name " +:+ dq +:+ h +:+ dq +:+ ";".

(** ** Optional [send] statements of the v4 configuration *)

Inductive send_option := ClientId | VendorClassId.

Definition option_name (o : send_option) : string :=
  match o with
  | ClientId => "client_id"
  | VendorClassId => "vendor_class_id"
  end.

Definition option_statement (o : send_option) : string :=
  match o with
  | ClientId => "send dhcp-client-identifier"
  | VendorClassId => "send vendor-class-identifier"
  end.

Definition option_line (o : send_option) (c : string) : string :=
  match o with
  | ClientId => client_id_line c
  | VendorClassId => vendor_class_line c
  end.

(** ** Argument vectors *)

(** Join words with single spaces. *)
Fixpoint unwords (ws : list string) : string :=
  match ws with
  | [] => EmptyString
  | [w] => w
  | w :: ws' => w +:+ String " " (unwords ws')
  end.

(** The string holds no whitespace. *)
Fixpoint no_space (s : string) : bool :=
  match s with
  | EmptyString => true
  | String c s' => negb (is_space c) && no_space s'
  end.

(** A name that is one shell word: not empty and free of whitespace. *)
Definition one_word (s : string) : bool :=
  negb (String.eqb s "") && no_space s.

(** The arguments of [_set_dhcpv6]'s command line before the optional
    flags. *)
Definition start6_fixed_args (e : entry6) : list string :=
  [ "start-stop-daemon"; "--start"; "--oknodo"; "--quiet"; "--pidfile"; pid6 e;
    "--exec"; "/sbin/dhclient"; "--"; "-6"; "-nw"; "-cf"; conf6 e; "-pf"; pid6 e;
    "-lf"; lease6 e ].

(** ** Concrete environments and states *)

(** External programs that return at once and leave the disk as it is, as
    when the launched client has not written its pid file yet. *)
Definition idle_control : Control :=
  {| cmd_effect := fun _ d => (Ok "", d);
     write_sysfs_effect := fun _ _ d => (Ok true, d) |}.

(** The argument that follows [flag] in an argument vector. *)
Fixpoint arg_after (flag : string) (ws : list string) : option string :=
  match ws with
  | [] => None
  | w :: rest =>
      match rest with
      | a :: _ => if String.eqb w flag then Some a else arg_after flag rest
      | [] => None
      end
  end.

Definition touch (p : string) (d : disk) : disk :=
  {| nodes := <[p := File ""]> (nodes d); denied := denied d |}.

(** A supervisor that leaves a pid file at the path given by [--pidfile]. *)
Definition pidfile_control : Control :=
  {| cmd_effect := fun c d =>
       match arg_after "--pidfile" (words c) with
       | Some p => (Ok "", touch p d)
       | None => (Ok "", d)
       end;
     write_sysfs_effect := fun _ _ d => (Ok true, d) |}.

(** A disk that holds the system hostname file with content [hostname]. *)
Definition boot_disk (hostname : string) : disk :=
  {| nodes := {[ "/etc/hostname" := File hostname ]}; denied := ∅ |}.

(** A freshly constructed object on a disk, with an empty log. *)
Definition fresh (ifname : string) (d : disk) : state :=
  {| self := __init__ ifname; fs := d; log := [] |}.

(** A disk on which the v4 client of [eth0] left its pid and configuration
    files, the configuration file being one the system refuses to unlink. *)
Definition locked_conf_disk : disk :=
  {| nodes := {[ "/var/lib/dhcp/dhclient_eth0.pid" := File "4242";
                 "/var/lib/dhcp/dhclient_eth0.conf" := File "" ]};
     denied := {[ "/var/lib/dhcp/dhclient_eth0.conf" ]} |}.

(** A disk on which the v6 client of [eth0] left its pid file. *)
Definition running6_disk : disk :=
  {| nodes := {[ "/var/lib/dhcp/dhclient_eth0.v6pid" := File "4242" ]};
     denied := ∅ |}.

(** The object of [eth1] after [set_dhcpv6_options] stored the given two
    flags. *)
Definition eth1_with_flags (prm_only temporary : bool) : state :=
  exec
    (set_dhcpv6_options
       (Dict (<["dhcpv6_prm_only" := PBool prm_only]>
                (<["dhcpv6_temporary" := PBool temporary]>
                   (options6 (dhcp6 (__init__ "eth1")))))))
    (fresh "eth1" (boot_disk "gw")).

(** The v4 options of [eth0] with the client identifier [abc]. *)
Definition eth0_options_abc : gmap string pyval :=
  <["client_id" := PStr "abc"]> (options4 (dhcp4 (__init__ "eth0"))).

(** The object of [eth0], freshly constructed, on a disk whose hostname
    file holds [name] followed by a newline. *)
Definition eth0_boot (name : string) : state :=
  fresh "eth0" (boot_disk (name +:+ String nl "")).

(** ** Two statements the code does not satisfy as worded *)

Section Worded.
Context `{Control}.

(** "After a successful start, stop removes the config, pid and lease
    files, and a second stop still succeeds." *)
Definition stop_after_start_cleans (v : ipver) (st0 : state) : Prop :=
  forall out st, start v st0 = (Ok out, st) ->
    eval (stop v) st = Ok tt
    /\ (forall k, isfile (stored_path (self st) v k) (fs (exec (stop v) st)) = false)
    /\ eval (stop v) (exec (stop v) st) = Ok tt.

(** "If deleting the config, pid or lease file fails during stop, stop
    still returns successfully." *)
Definition deletion_failure_tolerated (v : ipver) (st : state) : Prop :=
  forall d k,
    isfile (stored_path (self st) v KPid) (fs st) = true ->
    stop_calls v st = (Ok tt, d) ->
    isfile (stored_path (self st) v k) d = true ->
    refused (stored_path (self st) v k) d = true ->
    eval (stop v) st = Ok tt.

End Worded.

(** ** Further observations *)

(** The paths removed. *)
Definition removals (evs : list event) : list string :=
  omap (fun e => match e with EvRemove p => Some p | _ => None end) evs.

(** The argument vector of [_set_dhcp]'s command line. *)
Definition start4_args (e : entry4) : list string :=
  [ "start-stop-daemon"; "--start"; "--oknodo"; "--quiet"; "--pidfile"; pid4 e;
    "--exec"; "/sbin/dhclient"; "--"; "-4"; "-nw"; "-cf"; conf4 e; "-pf"; pid4 e;
    "-lf"; lease4 e; ifname4 e ].

(** The argument vector of [_del_dhcp]'s command line. *)
Definition release4_args (e : entry4) : list string :=
  [ "/sbin/dhclient"; "-cf"; conf4 e; "-pf"; pid4 e; "-lf"; lease4 e; "-r";
    ifname4 e ].

(** When both option entries hold one dict object, the content seen
    through them is the same. *)
Definition options_agree (o : DHCP) : Prop :=
  shared_options o = true -> options4 (dhcp4 o) = options6 (dhcp6 o).

(** The content of a dict object passed to a setter. *)
Definition dict_content (a : pydict) (o : DHCP) : gmap string pyval :=
  match a with
  | Dict d => d
  | Stored V4 => options4 (dhcp4 o)
  | Stored V6 => options6 (dhcp6 o)
  end.

(** [n] newline characters. *)
Fixpoint newlines (n : nat) : string :=
  match n with
  | O => EmptyString
  | S n' => String nl (newlines n')
  end.

(** The last character of the string is a newline. *)
Fixpoint ends_nl (s : string) : bool :=
  match s with
  | EmptyString => false
  | String c EmptyString => Ascii.eqb c nl
  | String _ s' => ends_nl s'
  end.

(** Two objects that differ at most in their option dictionaries. *)
Record same_paths (o o' : DHCP) : Prop := {
  sp_ifname4 : ifname4 (dhcp4 o') = ifname4 (dhcp4 o);
  sp_ifname6 : ifname6 (dhcp6 o') = ifname6 (dhcp6 o);
  sp_stored : forall v k, stored_path o' v k = stored_path o v k;
  sp_accept_ra : accept_ra6 (dhcp6 o') = accept_ra6 (dhcp6 o);
}.

(** ** Further environments and states *)

(** A supervisor whose command fails. *)
Definition failing_cmd_control : Control :=
  {| cmd_effect := fun _ d => (Raise (ExternalError "command failed"), d);
     write_sysfs_effect := fun _ _ d => (Ok true, d) |}.

(** A sysfs write that fails. *)
Definition failing_sysfs_control : Control :=
  {| cmd_effect := fun _ d => (Ok "", d);
     write_sysfs_effect := fun _ _ d => (Raise (ExternalError "sysfs write failed"), d) |}.

(** The object of [eth0] after [set_dhcp_options] stored the given
    dictionary, on a disk with the hostname file. *)
Definition eth0_with_options (options : gmap string pyval) : state :=
  exec (set_dhcp_options (Dict options)) (eth0_boot "gw").

(** The object of [eth0] after the dict returned by [get_dhcp_options] was
    handed to [set_dhcpv6_options]: both entries hold the one dict. *)
Definition eth0_one_dict (name : string) : state :=
  exec (set_dhcpv6_options (Stored V4)) (eth0_boot name).

(** A disk whose hostname path is a node that is no regular file and can
    be read all the same. *)
Definition special_hostname_disk (content : string) : disk :=
  {| nodes := {[ "/etc/hostname" := Special content ]}; denied := ∅ |}.

(** The default v4 options of [eth0] with the hostname [vyos]. *)
Definition eth0_options_vyos : gmap string pyval :=
  <["hostname" := PStr "vyos"]> (options4 (dhcp4 (__init__ "eth0"))).

(** The object of [eth1] after [set_dhcpv6_options] stored the given
    dictionary. *)
Definition eth1_with_options (options : gmap string pyval) : state :=
  exec (set_dhcpv6_options (Dict options)) (fresh "eth1" (boot_disk "gw")).

(** A disk on which the v4 client of [eth0] left its pid, configuration and
    lease files, next to a file of another interface. *)
Definition running4_disk : disk :=
  {| nodes := {[ "/var/lib/dhcp/dhclient_eth0.pid" := File "4242";
                 "/var/lib/dhcp/dhclient_eth0.conf" := File "";
                 "/var/lib/dhcp/dhclient_eth0.leases" := File "";
                 "/var/lib/dhcp/dhclient_eth1.pid" := File "4243" ]};
     denied := ∅ |}.

(** A disk without any file and a read-only configuration path for the v6
    client of [eth1]. *)
Definition readonly6_disk : disk :=
  {| nodes := ∅; denied := {[ "/var/lib/dhcp/dhclient_eth1.v6conf" ]} |}.

(** * Properties *)

(** ** Strings *)

Lemma append_empty_r (s : string) : s +:+ "" = s.
Proof.
  induction s as [|c s IH]; [done|].
  change (String c s +:+ "") with (String c (s +:+ "")). by rewrite IH.
Qed.

Lemma chars_app (s t : string) :
  list_ascii_of_string (s +:+ t) = list_ascii_of_string s ++ list_ascii_of_string t.
Proof.
  induction s as [|c s IH]; [done|].
  change (String c s +:+ t) with (String c (s +:+ t)). cbn. by rewrite IH.
Qed.

Lemma chars_inj (s t : string) :
  list_ascii_of_string s = list_ascii_of_string t -> s = t.
Proof.
  intros E. rewrite <- (string_of_list_ascii_of_string s),
    <- (string_of_list_ascii_of_string t). by rewrite E.
Qed.

(** ** Stored paths *)

(** Two names followed by suffixes, read from the end. *)
Lemma suffixes_reversed (n1 n2 e1 e2 : string) :
  n1 +:+ e1 = n2 +:+ e2 ->
  reverse (list_ascii_of_string e1) ++ reverse (list_ascii_of_string n1)
  = reverse (list_ascii_of_string e2) ++ reverse (list_ascii_of_string n2).
Proof.
  intros E. apply (f_equal list_ascii_of_string) in E.
  rewrite !chars_app in E. apply (f_equal reverse) in E.
  by rewrite !reverse_app in E.
Qed.

Lemma stored_path_init (n : string) (v : ipver) (k : kind) :
  stored_path (__init__ n) v k = client_base +:+ n +:+ extension v k.
Proof. by destruct v, k. Qed.

Lemma stored_path_inj (n1 n2 : string) (v1 v2 : ipver) (k1 k2 : kind) :
  stored_path (__init__ n1) v1 k1 = stored_path (__init__ n2) v2 k2 ->
  n1 = n2 /\ v1 = v2 /\ k1 = k2.
Proof.
  rewrite !stored_path_init. intros E.
  apply (inj (String.app client_base)) in E.
  apply suffixes_reversed in E.
  destruct v1, k1, v2, k2; cbn in E; try discriminate E.
  all: split; [|done].
  all: apply chars_inj, (inj reverse).
  all: congruence.
Qed.

(** ** Stepping through the monad *)

Lemma bind_ok {A B} (m : M A) (k : A -> M B) st a st' :
  m st = (Ok a, st') -> (m ≫= k) st = k a st'.
Proof. intros E. unfold mbind, M_bind, bind. by rewrite E. Qed.

Lemma bind_raise {A B} (m : M A) (k : A -> M B) st e st' :
  m st = (Raise e, st') -> (m ≫= k) st = (Raise e, st').
Proof. intros E. unfold mbind, M_bind, bind. by rewrite E. Qed.

Lemma bind_unfold {A B} (m : M A) (k : A -> M B) st :
  (m ≫= k) st =
  match (m st).1 with
  | Ok a => k a (m st).2
  | Raise e => (Raise e, (m st).2)
  end.
Proof. unfold mbind, M_bind, bind. by destruct (m st) as [[a|e] st']. Qed.

Lemma getitem_ok (d : gmap string pyval) k v st :
  d !! k = Some v -> getitem d k st = (Ok v, st).
Proof. intros E. unfold getitem. by rewrite E. Qed.

Lemma lift_ok {A} (r : result A) (a : A) st :
  r = Ok a -> lift r st = (Ok a, st).
Proof. by intros ->. Qed.

(** ** The log *)

Lemma added_app st st' evs : log st' = log st ++ evs -> added st st' = evs.
Proof. intros E. unfold added. rewrite E. by rewrite drop_app_length. Qed.

Lemma invocations_app (a b : list event) :
  invocations (a ++ b) = invocations a ++ invocations b.
Proof. apply omap_app. Qed.

Lemma sysfs_writes_app (a b : list event) :
  sysfs_writes (a ++ b) = sysfs_writes a ++ sysfs_writes b.
Proof. apply omap_app. Qed.

(** ** The clean-up loop *)

Lemma cleanup_cons (p : string) (ps : list string) (st : state) :
  cleanup (p :: ps) st =
  if isfile p (fs st)
  then if refused p (fs st)
       then (Raise (OSError p), st)
       else cleanup ps (unlinked p st)
  else cleanup ps st.
Proof.
  cbn [cleanup]. unfold mbind, M_bind, bind, os_path_isfile, os_remove, refused.
  destruct (isfile p (fs st)) eqn:F; cbn; [|done].
  unfold isfile in F.
  destruct (nodes (fs st) !! p) as [[c| |c]|]; try done.
  by destruct (bool_decide _).
Qed.

Lemma isfile_unlinked (p q : string) (st : state) :
  isfile q (fs (unlinked p st)) = if decide (p = q) then false else isfile q (fs st).
Proof.
  unfold isfile, unlinked; cbn. rewrite lookup_delete.
  by destruct (decide (p = q)).
Qed.

Lemma only_removals_refl st : only_removals st st.
Proof.
  split; try done. exists []. by rewrite app_nil_r.
Qed.

Lemma only_removals_unlinked p st st' :
  only_removals (unlinked p st) st' -> only_removals st st'.
Proof.
  intros [Hs Hd Hf (evs & Hl & Hi & Hw)]. split.
  - by rewrite Hs.
  - by rewrite Hd.
  - intros q Hq. apply Hf in Hq. rewrite isfile_unlinked in Hq.
    by destruct (decide (p = q)).
  - exists (EvRemove p :: evs). rewrite Hl. cbn. rewrite <- app_assoc.
    by repeat split.
Qed.

Lemma cleanup_only_removals (ps : list string) (st : state) :
  only_removals st (exec (cleanup ps) st).
Proof.
  revert st. induction ps as [|p ps IH]; intros st; unfold exec in *.
  - apply only_removals_refl.
  - rewrite cleanup_cons.
    destruct (isfile p (fs st)); [destruct (refused p (fs st))|].
    + apply only_removals_refl.
    + apply (only_removals_unlinked p), IH.
    + apply IH.
Qed.

(** The loop succeeds when no path that is a regular file is refused; then
    none of the paths is a regular file afterwards. *)
Lemma cleanup_ok (ps : list string) (st : state) :
  (forall p, p ∈ ps -> isfile p (fs st) = true -> refused p (fs st) = false) ->
  eval (cleanup ps) st = Ok tt
  /\ forall p, p ∈ ps -> isfile p (fs (exec (cleanup ps) st)) = false.
Proof.
  revert st. induction ps as [|p ps IH]; intros st Hps; unfold eval, exec in *.
  - split; [done|]. intros p Hp. by apply elem_of_nil in Hp.
  - rewrite cleanup_cons.
    assert (Hstep : forall st1, only_removals st st1 ->
              isfile p (fs st1) = false ->
              (cleanup ps st1).1 = Ok tt
              /\ forall q, q ∈ p :: ps -> isfile q (fs (cleanup ps st1).2) = false).
    { intros st1 Hst1 Hp1. destruct (IH st1) as [IH1 IH2].
      { intros q Hq Fq. unfold refused. rewrite (or_denied _ _ Hst1).
        apply Hps; [by right|]. by apply (or_isfile _ _ Hst1). }
      split; [done|]. intros q [->|Hq]%elem_of_cons; [|by apply IH2].
      destruct (isfile p (fs (cleanup ps st1).2)) eqn:E; [|done].
      apply (or_isfile _ _ (cleanup_only_removals ps st1)) in E. congruence. }
    destruct (isfile p (fs st)) eqn:F.
    + rewrite (Hps p) by (done || by left).
      apply Hstep.
      * apply (only_removals_unlinked p), only_removals_refl.
      * rewrite isfile_unlinked. by rewrite decide_True.
    + apply Hstep; [apply only_removals_refl | done].
Qed.

(** The loop raises as soon as a path that is a regular file is refused. *)
Lemma cleanup_refused (ps : list string) (st : state) (p : string) :
  p ∈ ps -> isfile p (fs st) = true -> refused p (fs st) = true ->
  exists q, q ∈ ps /\ eval (cleanup ps) st = Raise (OSError q).
Proof.
  revert st. induction ps as [|a ps IH]; intros st Hp Fp Rp; unfold eval in *.
  - by apply elem_of_nil in Hp.
  - rewrite cleanup_cons.
    destruct (decide (a = p)) as [->|Hne].
    { rewrite Fp, Rp. exists p. split; [by left | done]. }
    apply elem_of_cons in Hp as [->|Hp]; [done|].
    assert (Hrest : forall st1, isfile p (fs st1) = true -> refused p (fs st1) = true ->
              exists q, q ∈ a :: ps /\ (cleanup ps st1).1 = Raise (OSError q)).
    { intros st1 F1 R1. destruct (IH st1 Hp F1 R1) as (q & Hq & E).
      exists q. split; [by right | done]. }
    destruct (isfile a (fs st)) eqn:Fa; [destruct (refused a (fs st)) eqn:Ra|].
    + exists a. split; [by left | done].
    + apply Hrest; [|done]. rewrite isfile_unlinked. by rewrite decide_False.
    + by apply Hrest.
Qed.

(** ** The command lines *)

Lemma format_release4 (e : entry4) :
  format "/sbin/dhclient -cf {conf} -pf {pid} -lf {lease} -r {ifname}" (kwargs4 e)
  = Ok (release4_line e).
Proof.
  unfold release4_line. rewrite <- (append_empty_r (ifname4 e)). reflexivity.
Qed.

Lemma format_stop6 (e : entry6) :
  format ((((("start-stop-daemon" +:+ " --start") +:+ " --oknodo") +:+ " --quiet")
           +:+ " --pidfile {pid}")) (kwargs6 e)
  = Ok (stop6_line e).
Proof.
  unfold stop6_line. rewrite <- (append_empty_r (pid6 e)). reflexivity.
Qed.

(** ** Unfolding the stop paths *)

Section Stop.
Context `{Control}.

Lemma cmd_unfold (c : string) (st : state) :
  _cmd c st = ((cmd_effect c (fs st)).1, after (EvCmd c) (cmd_effect c (fs st)).2 st).
Proof. unfold _cmd. by destruct (cmd_effect c (fs st)). Qed.

Lemma write_sysfs_unfold (p : string) (v : Z) (st : state) :
  _write_sysfs p v st
  = ((write_sysfs_effect p v (fs st)).1,
     after (EvSysfs p v) (write_sysfs_effect p v (fs st)).2 st).
Proof. unfold _write_sysfs. by destruct (write_sysfs_effect p v (fs st)). Qed.

Lemma del_dhcp_absent (st : state) :
  isfile (pid4 (dhcp4 (self st))) (fs st) = false ->
  _del_dhcp st = (Ok tt, after (EvDebug "No DHCP client PID found") (fs st) st).
Proof.
  intros F. unfold _del_dhcp.
  erewrite bind_ok by reflexivity.
  erewrite bind_ok by reflexivity.
  by rewrite F.
Qed.

Lemma del_dhcp_present (st : state) :
  isfile (pid4 (dhcp4 (self st))) (fs st) = true ->
  _del_dhcp st =
  let e := dhcp4 (self st) in
  let r := cmd_effect (release4_line e) (fs st) in
  let st1 := after (EvCmd (release4_line e)) r.2 st in
  match r.1 with
  | Ok _ => cleanup [conf4 e; pid4 e; lease4 e] st1
  | Raise x => (Raise x, st1)
  end.
Proof.
  intros F. unfold _del_dhcp.
  erewrite bind_ok by reflexivity.
  erewrite bind_ok by reflexivity.
  rewrite F. cbn [negb].
  erewrite bind_ok by (apply lift_ok, format_release4).
  unfold mbind, M_bind, bind. rewrite cmd_unfold. cbn zeta.
  by destruct (cmd_effect _ _).1.
Qed.

Lemma del_dhcpv6_absent (st : state) :
  isfile (pid6 (dhcp6 (self st))) (fs st) = false ->
  _del_dhcpv6 st = (Ok tt, after (EvDebug "No DHCPv6 client PID found") (fs st) st).
Proof.
  intros F. unfold _del_dhcpv6.
  erewrite bind_ok by reflexivity.
  erewrite bind_ok by reflexivity.
  by rewrite F.
Qed.

Lemma del_dhcpv6_present (st : state) :
  isfile (pid6 (dhcp6 (self st))) (fs st) = true ->
  _del_dhcpv6 st =
  let e := dhcp6 (self st) in
  let r := cmd_effect (stop6_line e) (fs st) in
  let st1 := after (EvCmd (stop6_line e)) r.2 st in
  match r.1 with
  | Ok _ =>
      let w := write_sysfs_effect (accept_ra6 e) 1 r.2 in
      let st2 := after (EvSysfs (accept_ra6 e) 1) w.2 st1 in
      match w.1 with
      | Ok _ => cleanup [conf6 e; pid6 e; lease6 e] st2
      | Raise x => (Raise x, st2)
      end
  | Raise x => (Raise x, st1)
  end.
Proof.
  intros F. unfold _del_dhcpv6.
  erewrite bind_ok by reflexivity.
  erewrite bind_ok by reflexivity.
  rewrite F. cbn [negb].
  erewrite bind_ok by (apply lift_ok, format_stop6).
  unfold mbind, M_bind, bind. rewrite cmd_unfold. cbn zeta.
  destruct (cmd_effect _ _).1; [|done].
  rewrite write_sysfs_unfold.
  by destruct (write_sysfs_effect _ _ _).1.
Qed.

Lemma stop_absent (v : ipver) (st : state) :
  isfile (stored_path (self st) v KPid) (fs st) = false ->
  exists msg, stop v st = (Ok tt, after (EvDebug msg) (fs st) st).
Proof.
  destruct v; cbn; intros F; eexists.
  - by apply del_dhcp_absent.
  - by apply del_dhcpv6_absent.
Qed.

(** Once the pid file is found and the external calls return, [stop] is
    the clean-up loop run on the disk they leave. *)
Lemma stop_present (v : ipver) (st : state) (d : disk) :
  isfile (stored_path (self st) v KPid) (fs st) = true ->
  stop_calls v st = (Ok tt, d) ->
  exists st1,
    stop v st
    = cleanup [stored_path (self st) v KConf; stored_path (self st) v KPid;
               stored_path (self st) v KLease] st1
    /\ self st1 = self st /\ fs st1 = d.
Proof.
  destruct v; cbn; intros F E.
  - rewrite del_dhcp_present by done. cbn zeta.
    destruct (cmd_effect _ _) as [[out|x] d1]; cbn in *; [|done].
    injection E as <-. by eexists.
  - rewrite del_dhcpv6_present by done. cbn zeta.
    destruct (cmd_effect _ _) as [[out|x] d1]; cbn in *; [|done].
    destruct (write_sysfs_effect _ _ _) as [[b|x] d2]; cbn in *; [|done].
    injection E as <-. by eexists.
Qed.

End Stop.

(** ** Assignment through the dict returned by [get_dhcp_options] *)

Lemma options4_assign (o : DHCP) (k : string) (v : pyval) :
  options4 (dhcp4 (assign_options4 k v o)) = <[k := v]> (options4 (dhcp4 o)).
Proof. unfold assign_options4. by destruct (shared_options o). Qed.

Lemma options6_assign (o : DHCP) (k : string) (v : pyval) :
  options6 (dhcp6 (assign_options4 k v o))
  = if shared_options o then <[k := v]> (options6 (dhcp6 o)) else options6 (dhcp6 o).
Proof. unfold assign_options4. by destruct (shared_options o). Qed.

Lemma shared_assign (o : DHCP) (k : string) (v : pyval) :
  shared_options (assign_options4 k v o) = shared_options o.
Proof. unfold assign_options4. by destruct (shared_options o) eqn:E. Qed.

Lemma dhcp4_paths_assign (o : DHCP) (k : string) (v : pyval) :
  ifname4 (dhcp4 (assign_options4 k v o)) = ifname4 (dhcp4 o)
  /\ conf4 (dhcp4 (assign_options4 k v o)) = conf4 (dhcp4 o)
  /\ pid4 (dhcp4 (assign_options4 k v o)) = pid4 (dhcp4 o)
  /\ lease4 (dhcp4 (assign_options4 k v o)) = lease4 (dhcp4 o).
Proof. unfold assign_options4. by destruct (shared_options o). Qed.

(** ** Trailing newlines *)

Lemma rstrip_nl_only_newlines (n : nat) : rstrip_nl (newlines n) = EmptyString.
Proof.
  induction n as [|n IH]; [done|].
  cbn [newlines rstrip_nl]. rewrite IH. done.
Qed.

(** [rstrip_nl] removes all the newlines at the end and nothing else. *)
Lemma rstrip_nl_newlines (name : string) (n : nat) :
  ends_nl name = false -> rstrip_nl (name +:+ newlines n) = name.
Proof.
  induction name as [|c name IH]; intros E.
  - change (EmptyString +:+ newlines n) with (newlines n).
    apply rstrip_nl_only_newlines.
  - change (String c name +:+ newlines n) with (String c (name +:+ newlines n)).
    cbn [rstrip_nl]. destruct name as [|c' name].
    + change (EmptyString +:+ newlines n) with (newlines n).
      rewrite rstrip_nl_only_newlines. cbn [ends_nl] in E. by rewrite E.
    + rewrite IH by exact E. done.
Qed.

(** Every text is a name that does not end in a newline, followed by
    newlines. *)
Lemma trailing_newlines_split (c : string) :
  exists name n, c = name +:+ newlines n /\ ends_nl name = false.
Proof.
  induction c as [|a c (name & n & -> & E)].
  - by exists EmptyString, O.
  - destruct name as [|b name].
    + destruct (Ascii.eqb a nl) eqn:A.
      * apply Ascii.eqb_eq in A as ->. by exists EmptyString, (S n).
      * exists (String a EmptyString), n. split; [done|]. cbn [ends_nl]. exact A.
    + exists (String a (String b name)), n. split; [done|]. exact E.
Qed.

(** ** Rendering the templates *)

Lemma append_assoc (a b c : string) : (a +:+ b) +:+ c = a +:+ (b +:+ c).
Proof.
  induction a as [|x a IH]; [done|].
  change (String x (a +:+ b) +:+ c = String x (a +:+ (b +:+ c))).
  change (String x ((a +:+ b) +:+ c) = String x (a +:+ (b +:+ c))).
  by rewrite IH.
Qed.

Lemma Template_v4 :
  Template template_v4 = Ok
    [ JData (unlines [ ""; "# generated by ifconfig.py";
        "option rfc3442-classless-static-routes code 121 = array of unsigned integer 8;";
        "timeout 60;"; "retry 300;"; ""; "interface " +:+ dq ]);
      JVar "intf";
      JData (unlines [ dq +:+ " {"; "    send host-name " +:+ dq ]);
      JVar "hostname";
      JData (unlines [ dq +:+ ";"; "    " ]);
      JIf "client_id";
      JData ("send dhcp-client-identifier " +:+ dq);
      JVar "client_id";
      JData (unlines [ dq +:+ ";"; "    " ]);
      JEndif;
      JData "";
      JIf "vendor_class_id";
      JData ("send vendor-class-identifier " +:+ dq);
      JVar "vendor_class_id";
      JData (unlines [ dq +:+ ";"; "    " ]);
      JEndif;
      JData (unlines [
        "request subnet-mask, broadcast-address, routers, domain-name-servers,";
        "        rfc3442-classless-static-routes, domain-name, interface-mtu;";
        "    require subnet-mask;"; "}"; "" ]) ].
Proof. vm_compute. reflexivity. Qed.

Lemma Template_v6 :
  Template template_v6 = Ok
    [ JData (unlines [ ""; "# generated by ifconfig.py"; "interface " +:+ dq ]);
      JVar "intf";
      JData (unlines [ dq +:+ " {";
        "    request routers, domain-name-servers, domain-name;"; "}"; "" ]) ].
Proof. vm_compute. reflexivity. Qed.

Lemma render_v4 (ctx : gmap string pyval) :
  render template_v4 ctx = Ok (unlines (conf4_lines ctx)).
Proof.
  unfold render. rewrite Template_v4. unfold conf4_lines.
  cbn [result_bind render_toks result_map forallb id andb].
  destruct (ctx_test ctx "client_id"), (ctx_test ctx "vendor_class_id");
    cbn [app unlines forallb id andb]; rewrite ?append_assoc; reflexivity.
Qed.

Lemma render_v6 (ctx : gmap string pyval) :
  render template_v6 ctx = Ok (unlines (conf6_lines ctx)).
Proof.
  unfold render. rewrite Template_v6. unfold conf6_lines.
  cbn [result_bind render_toks result_map forallb id andb].
  cbn [app unlines]; rewrite ?append_assoc; reflexivity.
Qed.

(** ** Lines of a text *)

Lemma snoc_append (cur : string) (c : ascii) (l : string) :
  snoc cur c +:+ l = cur +:+ String c l.
Proof. unfold snoc. by rewrite append_assoc. Qed.

Lemma no_nl_append (a b : string) : no_nl (a +:+ b) = no_nl a && no_nl b.
Proof.
  induction a as [|c a IH]; [done|].
  change (String c a +:+ b) with (String c (a +:+ b)). cbn.
  rewrite IH. by rewrite andb_assoc.
Qed.

Lemma split_nl_from_line (l cur rest : string) :
  no_nl l = true ->
  split_nl_from cur (l +:+ String nl rest) = (cur +:+ l) :: split_nl_from "" rest.
Proof.
  revert cur. induction l as [|c l IH]; intros cur Hl.
  - rewrite append_empty_r. cbn. done.
  - change (String c l +:+ String nl rest) with (String c (l +:+ String nl rest)).
    cbn in Hl |- *. apply andb_true_iff in Hl as [Hc Hl].
    apply negb_true_iff in Hc. rewrite Hc.
    rewrite IH by done. by rewrite snoc_append.
Qed.

Lemma split_nl_from_last (l cur : string) :
  no_nl l = true -> split_nl_from cur l = [cur +:+ l].
Proof.
  revert cur. induction l as [|c l IH]; intros cur Hl.
  - by rewrite append_empty_r.
  - cbn in Hl |- *. apply andb_true_iff in Hl as [Hc Hl].
    apply negb_true_iff in Hc. rewrite Hc.
    rewrite IH by done. by rewrite snoc_append.
Qed.

(** Splitting the joined lines gives the lines back, when none of them
    holds a newline. *)
Lemma split_nl_unlines (ls : list string) :
  ls <> [] -> Forall (fun l => no_nl l = true) ls -> split_nl (unlines ls) = ls.
Proof.
  unfold split_nl. induction ls as [|l ls IH]; [done|]. intros _ Hls.
  apply Forall_cons in Hls as [Hl Hls]. destruct ls as [|l' ls].
  - cbn. by rewrite split_nl_from_last.
  - cbn [unlines]. rewrite split_nl_from_line by done.
    cbn. f_equal. by apply IH.
Qed.

(** ** Words of a command line *)

Lemma no_space_append (a b : string) : no_space (a +:+ b) = no_space a && no_space b.
Proof.
  induction a as [|c a IH]; [done|].
  change (String c a +:+ b) with (String c (a +:+ b)). cbn.
  rewrite IH. by rewrite andb_assoc.
Qed.

Lemma words_from_word (w cur rest : string) :
  no_space w = true -> words_from cur (w +:+ rest) = words_from (cur +:+ w) rest.
Proof.
  revert cur. induction w as [|c w IH]; intros cur Hw.
  - by rewrite append_empty_r.
  - change (String c w +:+ rest) with (String c (w +:+ rest)).
    cbn in Hw |- *. apply andb_true_iff in Hw as [Hc Hw].
    apply negb_true_iff in Hc. rewrite Hc.
    rewrite IH by done. by rewrite snoc_append.
Qed.

Lemma one_word_spec (w : string) :
  one_word w = true -> String.eqb w "" = false /\ no_space w = true.
Proof.
  unfold one_word. intros [Hn Hs]%andb_true_iff.
  by apply negb_true_iff in Hn.
Qed.

(** Splitting the joined words gives the words back, when each of them is
    one word. *)
Lemma words_unwords (ws : list string) :
  Forall (fun w => one_word w = true) ws -> words (unwords ws) = ws.
Proof.
  unfold words. induction ws as [|w ws IH]; [done|]. intros Hws.
  apply Forall_cons in Hws as [Hw Hws].
  apply one_word_spec in Hw as [Hne Hw]. destruct ws as [|w' ws].
  - cbn [unwords]. rewrite <- (append_empty_r w) at 1.
    rewrite words_from_word by done. change ("" +:+ w) with w.
    cbn. by rewrite Hne.
  - cbn [unwords]. rewrite words_from_word by done. change ("" +:+ w) with w.
    cbn. rewrite Hne. f_equal. by apply IH.
Qed.

(** ** Unfolding the start paths *)

Lemma write_file_unfold (p text : string) (st : state) :
  write_file p text st =
  if writable p (fs st) then (Ok tt, written p text st) else (Raise (OSError p), st).
Proof.
  unfold write_file, writable, refused.
  destruct (nodes (fs st) !! p) as [[c| |c]|]; try done;
    by destruct (bool_decide _).
Qed.

Lemma format_start6 (e : entry6) (s t : bool) :
  let cmd := "start-stop-daemon" in
  let cmd := cmd +:+ " --start" in
  let cmd := cmd +:+ " --oknodo" in
  let cmd := cmd +:+ " --quiet" in
  let cmd := cmd +:+ " --pidfile {pid}" in
  let cmd := cmd +:+ " --exec /sbin/dhclient" in
  let cmd := cmd +:+ " --" in
  let cmd := cmd +:+ " -6 -nw -cf {conf} -pf {pid} -lf {lease}" in
  let cmd := if s then cmd +:+ " -S" else cmd in
  let cmd := if t then cmd +:+ " -T" else cmd in
  let cmd := cmd +:+ " {ifname}" in
  format cmd (kwargs6 e) = Ok (start6_line e s t).
Proof.
  cbv zeta. unfold start6_line. rewrite <- (append_empty_r (ifname6 e)).
  destruct s, t; reflexivity.
Qed.

Lemma format_start4 (e : entry4) :
  let cmd := "start-stop-daemon" in
  let cmd := cmd +:+ " --start" in
  let cmd := cmd +:+ " --oknodo" in
  let cmd := cmd +:+ " --quiet" in
  let cmd := cmd +:+ " --pidfile {pid}" in
  let cmd := cmd +:+ " --exec /sbin/dhclient" in
  let cmd := cmd +:+ " --" in
  let cmd := cmd +:+ " -4 -nw -cf {conf} -pf {pid} -lf {lease} {ifname}" in
  format cmd (kwargs4 e) = Ok (start4_line e).
Proof.
  cbv zeta. unfold start4_line. rewrite <- (append_empty_r (ifname4 e)).
  reflexivity.
Qed.

(** One step of a method: the first action returns. *)
Ltac step :=
  lazymatch goal with
  | |- context [ (lift (render template_v4 _) ≫= _) _ ] =>
      erewrite bind_ok by (apply lift_ok; apply render_v4)
  | |- context [ (lift (render template_v6 _) ≫= _) _ ] =>
      erewrite bind_ok by (apply lift_ok; apply render_v6)
  | |- context [ (lift (format _ (kwargs6 _)) ≫= _) _ ] =>
      erewrite bind_ok by (apply lift_ok; exact (format_start6 _ _ _))
  | |- context [ (lift (format _ (kwargs4 _)) ≫= _) _ ] =>
      erewrite bind_ok by (apply lift_ok; exact (format_start4 _))
  | |- context [ (getitem _ _ ≫= _) _ ] =>
      erewrite bind_ok by (by apply getitem_ok)
  | |- _ => erewrite bind_ok by reflexivity
  end.

Section Start.
Context `{Control}.

Lemma set_dhcpv6_unfold (st : state) (p t : pyval) :
  options6 (dhcp6 (self st)) !! "dhcpv6_prm_only" = Some p ->
  options6 (dhcp6 (self st)) !! "dhcpv6_temporary" = Some t ->
  _set_dhcpv6 st =
  if truthy p && truthy t
  then (Raise (Exception
                 "DHCPv6 temporary and parameters-only options are mutually exclusive!"),
        st)
  else
    let e := dhcp6 (self st) in
    if writable (conf6 e) (fs st)
    then
      let st1 := written (conf6 e) (unlines (conf6_lines (options6 e))) st in
      let w := write_sysfs_effect (accept_ra6 e) 0 (fs st1) in
      let st2 := after (EvSysfs (accept_ra6 e) 0) w.2 st1 in
      match w.1 with
      | Ok _ => _cmd (start6_line e (truthy p) (truthy t)) st2
      | Raise x => (Raise x, st2)
      end
    else (Raise (OSError (conf6 e)), st).
Proof.
  intros Hp Ht. unfold _set_dhcpv6.
  step. step.
  assert (Hboth :
    (if truthy p
     then getitem (options6 (dhcp6 (self st))) "dhcpv6_temporary"
          ≫= (fun temporary : pyval => mret (truthy temporary))
     else mret false) st = (Ok (truthy p && truthy t), st)).
  { destruct (truthy p); [|done]. by step. }
  erewrite bind_ok by apply Hboth. clear Hboth.
  destruct (truthy p && truthy t) eqn:B.
  { by erewrite bind_raise by reflexivity. }
  step. step. step. cbn zeta.
  rewrite bind_unfold, write_file_unfold.
  destruct (writable _ _); cbn [fst snd]; [|done].
  rewrite bind_unfold, write_sysfs_unfold. cbn [fst snd].
  destruct (write_sysfs_effect _ _ _).1; [|done].
  step. step. by step.
Qed.

Lemma set_dhcp_unfold (st : state) (h : pyval) :
  options4 (dhcp4 (self st)) !! "hostname" = Some h ->
  _set_dhcp st =
  match hostname_resolved h st with
  | Raise x => (Raise x, st)
  | Ok st1 =>
      let e := dhcp4 (self st1) in
      if writable (conf4 e) (fs st1)
      then _cmd (start4_line e)
             (written (conf4 e) (unlines (conf4_lines (options4 e))) st1)
      else (Raise (OSError (conf4 e)), st1)
  end.
Proof.
  intros Hh. unfold _set_dhcp, hostname_resolved.
  step. step.
  assert (Htail : forall st1 : state,
    (get_dhcp_options ≫= fun dhcp =>
     lift (render template_v4 dhcp) ≫= fun dhcp_text =>
     get_self ≫= fun o =>
     write_file (conf4 (dhcp4 o)) dhcp_text ≫= fun _ =>
     lift (format
             ((((((("start-stop-daemon" +:+ " --start") +:+ " --oknodo")
                  +:+ " --quiet") +:+ " --pidfile {pid}")
                +:+ " --exec /sbin/dhclient") +:+ " --")
              +:+ " -4 -nw -cf {conf} -pf {pid} -lf {lease} {ifname}")
             (kwargs4 (dhcp4 o))) ≫= fun line => _cmd line) st1
    = let e := dhcp4 (self st1) in
      if writable (conf4 e) (fs st1)
      then _cmd (start4_line e)
             (written (conf4 e) (unlines (conf4_lines (options4 e))) st1)
      else (Raise (OSError (conf4 e)), st1)).
  { intros st1. step. step. step. cbn zeta.
    rewrite bind_unfold, write_file_unfold.
    destruct (writable _ _); cbn [fst snd]; [|done].
    by step. }
  destruct (truthy h); cbn [negb].
  - step. apply Htail.
  - rewrite bind_unfold. rewrite (bind_unfold (read_file _)).
    unfold read_file.
    destruct (nodes (fs st) !! "/etc/hostname") as [[c| |c]|]; cbn [fst snd];
      try done; apply Htail.
Qed.

End Start.

(** * The stop path *)

Lemma added_after (ev : event) (d : disk) (st : state) :
  added st (after ev d st) = [ev].
Proof. by apply added_app. Qed.

Lemma added_trans (st st1 st2 : state) (evs1 evs2 : list event) :
  log st1 = log st ++ evs1 -> log st2 = log st1 ++ evs2 ->
  added st st2 = evs1 ++ evs2.
Proof. intros E1 E2. apply added_app. rewrite E2, E1. by rewrite app_assoc. Qed.

(** The clean-up loop run after some events were logged adds no command
    and no sysfs write to them. *)
Lemma added_cleanup (ps : list string) (st st1 : state) (evs : list event) :
  log st1 = log st ++ evs ->
  invocations (added st (exec (cleanup ps) st1)) = invocations evs
  /\ sysfs_writes (added st (exec (cleanup ps) st1)) = sysfs_writes evs.
Proof.
  intros E. destruct (or_log _ _ (cleanup_only_removals ps st1)) as (evs' & E' & Hi & Hw).
  rewrite (added_trans st st1 _ evs evs' E E').
  rewrite invocations_app, sysfs_writes_app, Hi, Hw. by rewrite !app_nil_r.
Qed.

Section StopClaims.
Context `{Control}.

(** What [_del_dhcpv6] hands to [_cmd] and [_write_sysfs] once it has found
    the pid file. *)
Lemma del_dhcpv6_present_log (st : state) :
  isfile (pid6 (dhcp6 (self st))) (fs st) = true ->
  let e := dhcp6 (self st) in
  let st' := exec _del_dhcpv6 st in
  invocations (added st st') = [stop6_line e]
  /\ (sysfs_writes (added st st') = []
      \/ sysfs_writes (added st st') = [(accept_ra6 e, 1%Z)]).
Proof.
  intros F. cbn zeta. unfold exec. rewrite del_dhcpv6_present by done. cbn zeta.
  set (e := dhcp6 (self st)).
  destruct (cmd_effect (stop6_line e) (fs st)) as [[out|x] d1]; cbn [fst snd].
  2: { rewrite added_after. split; [done | by left]. }
  destruct (write_sysfs_effect (accept_ra6 e) 1 d1) as [[b|x] d2]; cbn [fst snd].
  2: { rewrite (added_app _ _ [EvCmd (stop6_line e); EvSysfs (accept_ra6 e) 1])
         by (cbn [log after]; by rewrite <- app_assoc).
       split; [done | by right]. }
  match goal with
  | |- context [ cleanup ?ps ?s ] =>
      destruct (added_cleanup ps st s [EvCmd (stop6_line e); EvSysfs (accept_ra6 e) 1])
        as [Hi Hw]
  end.
  { cbn [log after]. by rewrite <- app_assoc. }
  unfold exec in Hi, Hw. rewrite Hi, Hw. split; [done | by right].
Qed.

(** C1 (the code departs from it): once the pid file is found,
    [_del_dhcpv6] hands exactly one command line to [_cmd], and that line
    runs the start/stop supervisor with [--start] against the pid file; it
    holds no stop flag, so nothing asks the supervisor to end the client. *)
Theorem del_dhcpv6_runs_supervisor_in_start_mode (st : state) :
  isfile (pid6 (dhcp6 (self st))) (fs st) = true ->
  invocations (added st (exec _del_dhcpv6 st))
  = [ "start-stop-daemon --start --oknodo --quiet --pidfile "
      +:+ pid6 (dhcp6 (self st)) ].
Proof. intros F. by destruct (del_dhcpv6_present_log st F) as [-> _]. Qed.

(** C3: when the pid file is not a file on disk, [stop] for either IP
    version returns successfully, hands no command to [_cmd], and leaves the
    disk as it was. *)
Theorem stop_without_pid_file (v : ipver) (st : state) :
  isfile (stored_path (self st) v KPid) (fs st) = false ->
  eval (stop v) st = Ok tt
  /\ invocations (added st (exec (stop v) st)) = []
  /\ fs (exec (stop v) st) = fs st.
Proof.
  intros F. destruct (stop_absent v st F) as [msg E].
  unfold eval, exec. rewrite E. cbn [fst snd]. by rewrite added_after.
Qed.

(** C10: when the v6 pid file is not a file on disk, [_del_dhcpv6] makes no
    [_write_sysfs] call, so the [accept_ra] setting is not written, and the
    disk is as it was. *)
Theorem del_dhcpv6_without_pid_keeps_accept_ra (st : state) :
  isfile (pid6 (dhcp6 (self st))) (fs st) = false ->
  sysfs_writes (added st (exec _del_dhcpv6 st)) = []
  /\ fs (exec _del_dhcpv6 st) = fs st.
Proof.
  intros F. unfold exec. rewrite del_dhcpv6_absent by done.
  cbn [snd]. by rewrite added_after.
Qed.

(** The converse reading of C10: a sysfs write made by [_del_dhcpv6] is the
    value [1] written to [accept_ra], and it is made only when the pid file
    was found. *)
Lemma del_dhcpv6_accept_ra_only_with_pid (st : state) (p : string) (v : Z) :
  (p, v) ∈ sysfs_writes (added st (exec _del_dhcpv6 st)) ->
  isfile (pid6 (dhcp6 (self st))) (fs st) = true
  /\ p = accept_ra6 (dhcp6 (self st)) /\ v = 1%Z.
Proof.
  destruct (isfile (pid6 (dhcp6 (self st))) (fs st)) eqn:F.
  - destruct (del_dhcpv6_present_log st F) as [_ [-> | ->]].
    + by intros ?%elem_of_nil.
    + intros Hin%list_elem_of_singleton. by injection Hin as -> ->.
  - unfold exec. rewrite del_dhcpv6_absent by done. cbn [snd].
    rewrite added_after. by intros ?%elem_of_nil.
Qed.

(** The three paths [stop] cleans up. *)
Lemma elem_of_stored_paths (o : DHCP) (v : ipver) (p : string) :
  p ∈ [stored_path o v KConf; stored_path o v KPid; stored_path o v KLease]
  <-> exists k, p = stored_path o v k.
Proof.
  rewrite !elem_of_cons, elem_of_nil. split.
  - intros [->|[->|[->|[]]]]; by eexists.
  - intros [[] ->]; auto.
Qed.

(** [stop] from any state in which the pid file is found, the external
    calls return and no removal is refused. *)
Lemma stop_cleans (v : ipver) (st : state) (d : disk) :
  isfile (stored_path (self st) v KPid) (fs st) = true ->
  stop_calls v st = (Ok tt, d) ->
  (forall k, isfile (stored_path (self st) v k) d = true ->
             refused (stored_path (self st) v k) d = false) ->
  eval (stop v) st = Ok tt
  /\ self (exec (stop v) st) = self st
  /\ forall k, isfile (stored_path (self st) v k) (fs (exec (stop v) st)) = false.
Proof.
  intros F E Hk. destruct (stop_present v st d F E) as (st1 & Es & Hself & Hfs).
  unfold eval, exec. rewrite Es.
  destruct (cleanup_ok
              [stored_path (self st) v KConf; stored_path (self st) v KPid;
               stored_path (self st) v KLease] st1) as [Hok Hgone].
  { intros p [k ->]%elem_of_stored_paths. rewrite Hfs. apply Hk. }
  split; [done|]. split.
  - rewrite <- Hself. apply (or_self _ _ (cleanup_only_removals _ st1)).
  - intros k. apply Hgone, elem_of_stored_paths. by exists k.
Qed.

(** C4, as amended: after a successful [start], a [stop] that finds the pid
    file, whose external calls return and whose removals are not refused,
    returns successfully and leaves none of the config, pid and lease paths
    a regular file; a second [stop] right after it returns successfully too
    and hands nothing to [_cmd]. *)
Theorem stop_after_start_removes_files (v : ipver) (st0 st : state)
    (out : string) (d : disk) :
  start v st0 = (Ok out, st) ->
  isfile (stored_path (self st) v KPid) (fs st) = true ->
  stop_calls v st = (Ok tt, d) ->
  (forall k, isfile (stored_path (self st) v k) d = true ->
             refused (stored_path (self st) v k) d = false) ->
  let st' := exec (stop v) st in
  eval (stop v) st = Ok tt
  /\ (forall k, isfile (stored_path (self st) v k) (fs st') = false)
  /\ eval (stop v) st' = Ok tt
  /\ invocations (added st' (exec (stop v) st')) = [].
Proof.
  intros _ F E Hk. cbn zeta.
  destruct (stop_cleans v st d F E Hk) as (Hok & Hself & Hgone).
  split; [done|]. split; [done|].
  assert (F' : isfile (stored_path (self (exec (stop v) st)) v KPid)
                 (fs (exec (stop v) st)) = false).
  { rewrite Hself. apply Hgone. }
  destruct (stop_absent v _ F') as [msg E'].
  generalize dependent (exec (stop v) st). intros st' _ _ _ E'.
  unfold eval, exec. rewrite E'. cbn [fst snd].
  by rewrite added_after.
Qed.

(** Whenever [stop] returns successfully, the pid path is no regular file,
    so a second [stop] is the no-op of C3. *)
Lemma stop_twice (v : ipver) (st : state) :
  eval (stop v) st = Ok tt ->
  isfile (stored_path (self (exec (stop v) st)) v KPid) (fs (exec (stop v) st)) = false.
Proof.
  intros Hok. destruct (isfile (stored_path (self st) v KPid) (fs st)) eqn:F.
  2: { destruct (stop_absent v st F) as [msg E]. unfold exec. by rewrite E. }
  destruct (stop_calls v st) as [[[]|x] d] eqn:E.
  2: { exfalso. revert Hok E. unfold eval. destruct v; cbn [stop stop_calls].
       - rewrite del_dhcp_present by done. cbn zeta.
         destruct (cmd_effect _ _) as [[o|y] d1]; cbn; [done|]. by intros.
       - rewrite del_dhcpv6_present by done. cbn zeta.
         destruct (cmd_effect _ _) as [[o|y] d1]; cbn; [|by intros].
         destruct (write_sysfs_effect _ _ _) as [[b|y] d2]; cbn; [done|]. by intros. }
  destruct (stop_present v st d F E) as (st1 & Es & Hself & Hfs).
  unfold eval, exec in *. rewrite Es in *.
  pose proof (cleanup_only_removals
    [stored_path (self st) v KConf; stored_path (self st) v KPid;
     stored_path (self st) v KLease] st1) as Hor.
  unfold exec in Hor. rewrite (or_self _ _ Hor), Hself.
  set (pc := stored_path (self st) v KConf) in *.
  set (pp := stored_path (self st) v KPid) in *.
  set (pl := stored_path (self st) v KLease) in *.
  assert (Hpid : forall s, (cleanup [pp; pl] s).1 = Ok tt ->
                   isfile pp (fs (cleanup [pp; pl] s).2) = false).
  { intros s. rewrite (cleanup_cons pp).
    destruct (isfile pp (fs s)) eqn:Fp; [destruct (refused pp (fs s))|];
      [by cbn | |]; intros _.
    - destruct (isfile pp (fs (cleanup [pl] (unlinked pp s)).2)) eqn:Fl; [|done].
      apply (or_isfile _ _ (cleanup_only_removals _ (unlinked pp s))) in Fl.
      rewrite isfile_unlinked in Fl. by rewrite decide_True in Fl.
    - destruct (isfile pp (fs (cleanup [pl] s).2)) eqn:Fl; [|done].
      apply (or_isfile _ _ (cleanup_only_removals _ s)) in Fl. congruence. }
  revert Hok. rewrite (cleanup_cons pc).
  destruct (isfile pc (fs st1)); [destruct (refused pc (fs st1))|];
    [by cbn | apply Hpid | apply Hpid].
Qed.

(** C5, as amended: when [stop] has found the pid file and its external
    calls have returned, a config, pid or lease path that is a regular file
    and whose removal is refused makes [stop] raise the [OSError] of the
    first such path: the failure reaches the caller. *)
Theorem stop_propagates_deletion_failure (v : ipver) (st : state)
    (d : disk) (k : kind) :
  isfile (stored_path (self st) v KPid) (fs st) = true ->
  stop_calls v st = (Ok tt, d) ->
  isfile (stored_path (self st) v k) d = true ->
  refused (stored_path (self st) v k) d = true ->
  exists k', eval (stop v) st = Raise (OSError (stored_path (self st) v k')).
Proof.
  intros F E Fk Rk. destruct (stop_present v st d F E) as (st1 & Es & Hself & Hfs).
  destruct (cleanup_refused
              [stored_path (self st) v KConf; stored_path (self st) v KPid;
               stored_path (self st) v KLease] st1 (stored_path (self st) v k))
    as (q & [k' ->]%elem_of_stored_paths & Eq).
  - apply elem_of_stored_paths. by exists k.
  - by rewrite Hfs.
  - by rewrite Hfs.
  - exists k'. unfold eval in *. by rewrite Es.
Qed.

End StopClaims.

(** * The start path *)

Lemma start6_line_unwords (e : entry6) (s t : bool) :
  start6_line e s t
  = unwords (start6_fixed_args e
             ++ (if s then ["-S"] else []) ++ (if t then ["-T"] else [])
             ++ [ifname6 e]).
Proof.
  unfold start6_line, start6_fixed_args.
  destruct s, t; cbn [app unwords]; rewrite ?append_assoc; reflexivity.
Qed.

Lemma start6_line_words (e : entry6) (s t : bool) :
  Forall (fun w => one_word w = true) [ifname6 e; conf6 e; pid6 e; lease6 e] ->
  words (start6_line e s t)
  = start6_fixed_args e
    ++ (if s then ["-S"] else []) ++ (if t then ["-T"] else []) ++ [ifname6 e].
Proof.
  intros Hw.
  apply Forall_cons in Hw as [Hi Hw]. apply Forall_cons in Hw as [Hc Hw].
  apply Forall_cons in Hw as [Hp Hw]. apply Forall_cons in Hw as [Hl _].
  rewrite start6_line_unwords. apply words_unwords.
  unfold start6_fixed_args.
  destruct s, t; cbn [app]; repeat (apply Forall_cons; split); try done;
    apply Forall_nil_2.
Qed.

(** The name and the v6 paths of an object constructed for a one-word
    interface name are one word each. *)
Lemma init_one_word (n : string) (options : gmap string pyval) :
  one_word n = true ->
  let e := dhcp6 (set_options6 options (__init__ n)) in
  Forall (fun w => one_word w = true) [ifname6 e; conf6 e; pid6 e; lease6 e].
Proof.
  intros [Hne Hn]%one_word_spec. cbn zeta.
  cbn [dhcp6 set_options6 __init__ ifname6 conf6 pid6 lease6].
  repeat (apply Forall_cons; split); try apply Forall_nil_2; unfold one_word.
  - by rewrite Hne, Hn.
  - rewrite !no_space_append, Hn. reflexivity.
  - rewrite !no_space_append, Hn. reflexivity.
  - rewrite !no_space_append, Hn. reflexivity.
Qed.

(** For such an object, with parameters-only set and temporary unset, [-S]
    is an argument of the start line and [-T] is not, unless the interface
    itself is named [-T]. *)
Lemma start6_line_flags_init (n : string) (options : gmap string pyval) :
  one_word n = true ->
  let line := start6_line (dhcp6 (set_options6 options (__init__ n))) true false in
  "-S" ∈ words line /\ ("-T" ∈ words line -> n = "-T").
Proof.
  intros Hn. cbn zeta.
  rewrite (start6_line_words _ true false (init_one_word n options Hn)).
  cbn [dhcp6 set_options6 __init__ ifname6 conf6 pid6 lease6 start6_fixed_args app].
  split.
  - rewrite !elem_of_cons. tauto.
  - rewrite !elem_of_cons, elem_of_nil.
    intros Hin. repeat (destruct Hin as [E|Hin]; [try discriminate E|]); try done.
Qed.

Lemma conf4_lines_nonempty (ctx : gmap string pyval) : conf4_lines ctx <> [].
Proof. unfold conf4_lines. discriminate. Qed.

Lemma conf4_lines_no_nl (ctx : gmap string pyval) :
  (forall x, no_nl (ctx_str ctx x) = true) ->
  Forall (fun l => no_nl l = true) (conf4_lines ctx).
Proof.
  intros Hnl. unfold conf4_lines.
  destruct (ctx_test ctx "client_id"), (ctx_test ctx "vendor_class_id"); cbn [app];
    repeat (apply Forall_cons; split); try apply Forall_nil_2;
    rewrite ?no_nl_append, ?Hnl; reflexivity.
Qed.

Lemma ctx_str_lookup (ctx : gmap string pyval) (x : string) (v : pyval) :
  ctx !! x = Some v -> ctx_str ctx x = py_str v.
Proof. intros E. unfold ctx_str, ctx_get. by rewrite E. Qed.

Lemma ctx_test_lookup (ctx : gmap string pyval) (x : string) (v : pyval) :
  ctx !! x = Some v -> ctx_test ctx x = truthy v.
Proof. intros E. unfold ctx_test, ctx_get. by rewrite E. Qed.

(** The configuration lines that start with the [send] statement of an
    option: none when the option is the empty string, else the one line
    that sends it. *)
Lemma conf4_lines_option (o : send_option) (ctx : gmap string pyval) (c : string) :
  ctx !! option_name o = Some (PStr c) ->
  List.filter (line_starts (option_statement o)) (conf4_lines ctx)
  = if String.eqb c "" then [] else [option_line o c].
Proof.
  intros Hc. unfold conf4_lines.
  pose proof (ctx_str_lookup _ _ _ Hc) as Hs.
  pose proof (ctx_test_lookup _ _ _ Hc) as Ht.
  cbn [py_str truthy] in Hs, Ht.
  generalize (ctx_str ctx "intf") (ctx_str ctx "hostname"). intros i h.
  destruct o; cbn [option_name option_statement option_line] in *; rewrite Hs, Ht.
  - generalize (ctx_str ctx "vendor_class_id"). intros w.
    destruct (ctx_test ctx "vendor_class_id"), (String.eqb c ""); reflexivity.
  - generalize (ctx_str ctx "client_id"). intros w.
    destruct (ctx_test ctx "client_id"), (String.eqb c ""); reflexivity.
Qed.

(** C7: rendering the v4 template yields the configuration lines of the
    context; with the option [client_id] (or [vendor_class_id]) equal to the
    empty string no line starts with its [send] statement, and with a value
    such as [abc] exactly one line does, the line [send
    dhcp-client-identifier "abc";] (or [send vendor-class-identifier
    "abc";]).  When no option value holds a newline these lines are the
    lines of the rendered text. *)
Theorem render_v4_optional_send_line (o : send_option)
    (ctx : gmap string pyval) (c : string) :
  ctx !! option_name o = Some (PStr c) ->
  render template_v4 ctx = Ok (unlines (conf4_lines ctx))
  /\ List.filter (line_starts (option_statement o)) (conf4_lines ctx)
     = (if String.eqb c "" then [] else [option_line o c])
  /\ ((forall x, no_nl (ctx_str ctx x) = true) ->
      split_nl (unlines (conf4_lines ctx)) = conf4_lines ctx).
Proof.
  intros Hc. split; [apply render_v4|]. split; [by apply conf4_lines_option|].
  intros Hnl. apply split_nl_unlines; [apply conf4_lines_nonempty|].
  by apply conf4_lines_no_nl.
Qed.

Section StartClaims.
Context `{Control}.

(** C2: when both [dhcpv6_prm_only] and [dhcpv6_temporary] are true,
    [_set_dhcpv6] raises the exception on mutually exclusive options and the
    state is the one it started from: no file was written, no sysfs write
    and no command was made. *)
Theorem set_dhcpv6_rejects_exclusive_options (st : state) (p t : pyval) :
  options6 (dhcp6 (self st)) !! "dhcpv6_prm_only" = Some p ->
  options6 (dhcp6 (self st)) !! "dhcpv6_temporary" = Some t ->
  truthy p = true ->
  truthy t = true ->
  _set_dhcpv6 st
  = (Raise (Exception
              "DHCPv6 temporary and parameters-only options are mutually exclusive!"),
     st).
Proof.
  intros Hp Ht Tp Tt. rewrite (set_dhcpv6_unfold st p t Hp Ht).
  by rewrite Tp, Tt.
Qed.

(** What [_set_dhcpv6] hands to [_cmd]: nothing, or the one start line. *)
Lemma set_dhcpv6_invocations (st : state) (p t : pyval) :
  options6 (dhcp6 (self st)) !! "dhcpv6_prm_only" = Some p ->
  options6 (dhcp6 (self st)) !! "dhcpv6_temporary" = Some t ->
  truthy p && truthy t = false ->
  let e := dhcp6 (self st) in
  let text := unlines (conf6_lines (options6 e)) in
  invocations (added st (exec _set_dhcpv6 st))
  = if writable (conf6 e) (fs st)
    then match (write_sysfs_effect (accept_ra6 e) 0 (fs (written (conf6 e) text st))).1 with
         | Ok _ => [start6_line e (truthy p) (truthy t)]
         | Raise _ => []
         end
    else [].
Proof.
  intros Hp Ht B. cbn zeta. unfold exec.
  rewrite (set_dhcpv6_unfold st p t Hp Ht), B. cbn zeta.
  set (e := dhcp6 (self st)).
  destruct (writable (conf6 e) (fs st)); cbn [snd].
  2: { by rewrite (added_app _ _ []) by (by rewrite app_nil_r). }
  destruct (write_sysfs_effect _ _ _) as [[b|x] d]; cbn [fst snd].
  - rewrite cmd_unfold. cbn [snd].
    by rewrite (added_app _ _ [EvWrite _ _; EvSysfs _ _; EvCmd _])
      by (cbn [log after written]; by rewrite <- !app_assoc).
  - by rewrite (added_app _ _ [EvWrite _ _; EvSysfs _ _])
      by (cbn [log after written]; by rewrite <- !app_assoc).
Qed.

(** C8: with [dhcpv6_prm_only] true and [dhcpv6_temporary] false, every
    command line [_set_dhcpv6] hands to [_cmd] is the start line with [-S]
    and without [-T] between the lease path and the interface name (and
    with [-T] and without [-S] when the options are the other way round);
    the line is handed over whenever the configuration file can be written
    and the sysfs write returns; its argument vector is the fixed
    arguments, the flag, and the interface name. *)
Theorem set_dhcpv6_flags (st : state) (p t : pyval) :
  options6 (dhcp6 (self st)) !! "dhcpv6_prm_only" = Some p ->
  options6 (dhcp6 (self st)) !! "dhcpv6_temporary" = Some t ->
  truthy p && truthy t = false ->
  let e := dhcp6 (self st) in
  let text := unlines (conf6_lines (options6 e)) in
  let line := start6_line e (truthy p) (truthy t) in
  (forall c, c ∈ invocations (added st (exec _set_dhcpv6 st)) -> c = line)
  /\ (forall b,
        writable (conf6 e) (fs st) = true ->
        (write_sysfs_effect (accept_ra6 e) 0 (fs (written (conf6 e) text st))).1 = Ok b ->
        invocations (added st (exec _set_dhcpv6 st)) = [line])
  /\ (Forall (fun w => one_word w = true) [ifname6 e; conf6 e; pid6 e; lease6 e] ->
      words line
      = start6_fixed_args e
        ++ (if truthy p then ["-S"] else []) ++ (if truthy t then ["-T"] else [])
        ++ [ifname6 e]).
Proof.
  intros Hp Ht B. cbn zeta.
  rewrite (set_dhcpv6_invocations st p t Hp Ht B). cbn zeta.
  split; [|split].
  - intros c. destruct (writable _ _); [|by intros ?%elem_of_nil].
    destruct (write_sysfs_effect _ _ _).1; [|by intros ?%elem_of_nil].
    by intros ->%list_elem_of_singleton.
  - intros b -> ->. done.
  - apply start6_line_words.
Qed.

(** C6: with the hostname option empty and the system hostname file
    holding a name followed by any number of newlines, the name itself not
    ending in one, [_set_dhcp] stores the name, without those newlines, as
    the hostname option, and writes to the configuration path the rendering
    of the template under these options, whose eighth line is
    [send host-name] with the name between double quotes. *)
Theorem set_dhcp_reads_system_hostname (st : state) (name : string) (n : nat) :
  options4 (dhcp4 (self st)) !! "hostname" = Some (PStr "") ->
  nodes (fs st) !! "/etc/hostname" = Some (File (name +:+ newlines n)) ->
  ends_nl name = false ->
  writable (conf4 (dhcp4 (self st))) (fs st) = true ->
  let st' := exec _set_dhcp st in
  let options := options4 (dhcp4 (self st')) in
  options !! "hostname" = Some (PStr name)
  /\ render template_v4 options = Ok (unlines (conf4_lines options))
  /\ file_writes (added st st')
     = [(conf4 (dhcp4 (self st)), unlines (conf4_lines options))]
  /\ conf4_lines options !! 7%nat
     = Some ("    send host-name " +:+ dq +:+ name +:+ dq +:+ ";").
Proof.
  intros Hh Hf E W. cbn zeta. unfold exec.
  rewrite (set_dhcp_unfold st _ Hh). unfold hostname_resolved.
  cbn [truthy String.eqb negb]. rewrite Hf. cbn zeta.
  rewrite (rstrip_nl_newlines name n E).
  destruct (dhcp4_paths_assign (self st) "hostname" (PStr name))
    as (_ & Hconf & _).
  cbn [with_hostname self fs]. rewrite Hconf, W. rewrite cmd_unfold.
  cbn [snd after self written with_hostname]. rewrite options4_assign.
  set (options := <["hostname" := PStr name]> (options4 (dhcp4 (self st)))).
  assert (Hl : options !! "hostname" = Some (PStr name))
    by apply lookup_insert_eq.
  split; [done|]. split; [apply render_v4|]. split.
  - by rewrite (added_app _ _ [EvWrite _ _; EvCmd _])
      by (cbn [log after written with_hostname]; by rewrite <- !app_assoc).
  - unfold conf4_lines. rewrite (ctx_str_lookup _ _ _ Hl). reflexivity.
Qed.

End StartClaims.

(** C9: the config, pid and lease paths stored by the constructor are the
    base path, the interface name and an extension fixed by IP version and
    kind; for two distinct pairs of interface name and IP version none of
    the stored paths of the one equals a stored path of the other. *)
Theorem stored_paths_distinct (n1 n2 : string) (v1 v2 : ipver) (k1 k2 : kind) :
  (n1, v1) <> (n2, v2) ->
  stored_path (__init__ n1) v1 k1 = client_base +:+ n1 +:+ extension v1 k1
  /\ stored_path (__init__ n1) v1 k1 <> stored_path (__init__ n2) v2 k2.
Proof.
  intros Hne. split; [apply stored_path_init|].
  intros E. apply stored_path_inj in E as (-> & -> & _). by apply Hne.
Qed.

(** * The properties at concrete inputs *)

(** The stop line of [eth0] for v6, word by word: [--start], and no stop
    flag. *)
Example stop6_line_eth0_words :
  words (stop6_line (dhcp6 (__init__ "eth0")))
  = [ "start-stop-daemon"; "--start"; "--oknodo"; "--quiet"; "--pidfile";
      "/var/lib/dhcp/dhclient_eth0.v6pid" ].
Proof. vm_compute. reflexivity. Qed.

Lemma del_dhcpv6_runs_supervisor_in_start_mode_witness :
  invocations
    (added (fresh "eth0" running6_disk)
       (exec (@_del_dhcpv6 idle_control) (fresh "eth0" running6_disk)))
  = [ "start-stop-daemon --start --oknodo --quiet --pidfile "
      +:+ pid6 (dhcp6 (self (fresh "eth0" running6_disk))) ].
Proof.
  apply (@del_dhcpv6_runs_supervisor_in_start_mode idle_control
           (fresh "eth0" running6_disk)).
  vm_compute. reflexivity.
Defined.

Lemma set_dhcpv6_rejects_exclusive_options_witness :
  @_set_dhcpv6 idle_control (eth1_with_flags true true)
  = (Raise (Exception
              "DHCPv6 temporary and parameters-only options are mutually exclusive!"),
     eth1_with_flags true true).
Proof.
  apply (@set_dhcpv6_rejects_exclusive_options idle_control
           (eth1_with_flags true true) (PBool true) (PBool true));
    vm_compute; reflexivity.
Defined.

Lemma stop_without_pid_file_witness :
  eval (@stop pidfile_control V6) (fresh "eth0" (boot_disk "gw")) = Ok tt
  /\ invocations
       (added (fresh "eth0" (boot_disk "gw"))
          (exec (@stop pidfile_control V6) (fresh "eth0" (boot_disk "gw")))) = []
  /\ fs (exec (@stop pidfile_control V6) (fresh "eth0" (boot_disk "gw")))
     = fs (fresh "eth0" (boot_disk "gw")).
Proof.
  apply (@stop_without_pid_file pidfile_control V6 (fresh "eth0" (boot_disk "gw"))).
  vm_compute. reflexivity.
Defined.

Lemma del_dhcpv6_without_pid_keeps_accept_ra_witness :
  sysfs_writes
    (added (fresh "eth0" (boot_disk "gw"))
       (exec (@_del_dhcpv6 idle_control) (fresh "eth0" (boot_disk "gw")))) = []
  /\ fs (exec (@_del_dhcpv6 idle_control) (fresh "eth0" (boot_disk "gw")))
     = fs (fresh "eth0" (boot_disk "gw")).
Proof.
  apply (@del_dhcpv6_without_pid_keeps_accept_ra idle_control
           (fresh "eth0" (boot_disk "gw"))).
  vm_compute. reflexivity.
Defined.

(** C4 as worded fails: [start] succeeds but the client has not written its
    pid file when [stop] runs; [stop] returns at once and the configuration
    file written by [start] is still there. *)
Lemma stop_after_start_leaves_conf :
  ~ @stop_after_start_cleans idle_control V4 (eth0_boot "gw").
Proof.
  intros Hc.
  destruct (Hc "" (exec (@start idle_control V4) (eth0_boot "gw"))) as (_ & Hk & _).
  { vm_compute. reflexivity. }
  specialize (Hk KConf). vm_compute in Hk. discriminate Hk.
Qed.

Lemma stop_after_start_removes_files_witness :
  let st := exec (@start pidfile_control V4) (eth0_boot "gw") in
  let st' := exec (@stop pidfile_control V4) st in
  eval (@stop pidfile_control V4) st = Ok tt
  /\ (forall k, isfile (stored_path (self st) V4 k) (fs st') = false)
  /\ eval (@stop pidfile_control V4) st' = Ok tt
  /\ invocations (added st' (exec (@stop pidfile_control V4) st')) = [].
Proof.
  cbv zeta.
  apply (@stop_after_start_removes_files pidfile_control V4 (eth0_boot "gw")
           (exec (@start pidfile_control V4) (eth0_boot "gw")) ""
           (fs (exec (@start pidfile_control V4) (eth0_boot "gw")))).
  - vm_compute. reflexivity.
  - vm_compute. reflexivity.
  - vm_compute. reflexivity.
  - intros k. destruct k; vm_compute; intros _; reflexivity.
Defined.

(** C5 as worded fails: the configuration file of [eth0] cannot be
    unlinked, and [stop] raises instead of returning. *)
Lemma stop_raises_on_locked_conf :
  ~ @deletion_failure_tolerated idle_control V4 (fresh "eth0" locked_conf_disk).
Proof.
  intros Hc. specialize (Hc locked_conf_disk KConf).
  vm_compute in Hc. discriminate (Hc eq_refl eq_refl eq_refl eq_refl).
Qed.

Lemma stop_propagates_deletion_failure_witness :
  exists k',
    eval (@stop idle_control V4) (fresh "eth0" locked_conf_disk)
    = Raise (OSError (stored_path (self (fresh "eth0" locked_conf_disk)) V4 k')).
Proof.
  apply (@stop_propagates_deletion_failure idle_control V4
           (fresh "eth0" locked_conf_disk) locked_conf_disk KConf);
    vm_compute; reflexivity.
Defined.

Example rstrip_nl_router1 :
  rstrip_nl ("router1" +:+ String nl "") = "router1".
Proof. reflexivity. Qed.

Example rstrip_nl_all_trailing :
  rstrip_nl ("gw" +:+ String nl (String nl "")) = "gw".
Proof. reflexivity. Qed.

Example rstrip_nl_inner_kept :
  rstrip_nl ("a" +:+ String nl ("b" +:+ String nl "")) = "a" +:+ String nl "b".
Proof. reflexivity. Qed.

(** Interface [eth0], v4, all options empty, hostname file [gw] and a
    newline: [start] writes the configuration with the [send host-name]
    line for [gw] and no client-identifier or vendor-class line, then hands
    the start line to [_cmd]. *)
Example start_v4_eth0_scenario :
  log (exec (@start idle_control V4) (eth0_boot "gw"))
  = [ EvWrite "/var/lib/dhcp/dhclient_eth0.conf"
        (unlines
           [ "";
             "# generated by ifconfig.py";
             "option rfc3442-classless-static-routes code 121 = array of unsigned integer 8;";
             "timeout 60;";
             "retry 300;";
             "";
             "interface " +:+ dq +:+ "eth0" +:+ dq +:+ " {";
             "    send host-name " +:+ dq +:+ "gw" +:+ dq +:+ ";";
             "    request subnet-mask, broadcast-address, routers, domain-name-servers,";
             "        rfc3442-classless-static-routes, domain-name, interface-mtu;";
             "    require subnet-mask;";
             "}";
             "" ]);
      EvCmd ("start-stop-daemon --start --oknodo --quiet"
             +:+ " --pidfile /var/lib/dhcp/dhclient_eth0.pid"
             +:+ " --exec /sbin/dhclient -- -4 -nw"
             +:+ " -cf /var/lib/dhcp/dhclient_eth0.conf"
             +:+ " -pf /var/lib/dhcp/dhclient_eth0.pid"
             +:+ " -lf /var/lib/dhcp/dhclient_eth0.leases eth0") ].
Proof. vm_compute. reflexivity. Qed.

(** The v6 configuration of [eth1]. *)
Example render_v6_eth1 :
  render template_v6 (options6 (dhcp6 (__init__ "eth1")))
  = Ok (unlines
          [ "";
            "# generated by ifconfig.py";
            "interface " +:+ dq +:+ "eth1" +:+ dq +:+ " {";
            "    request routers, domain-name-servers, domain-name;";
            "}";
            "" ]).
Proof. vm_compute. reflexivity. Qed.

(** The hostname file holds [router1] and a newline: the name sent is
    [router1]. *)
Example host_name_line_router1 :
  host_name_line (rstrip_nl ("router1" +:+ String nl ""))
  = "    send host-name " +:+ dq +:+ "router1" +:+ dq +:+ ";".
Proof. vm_compute. reflexivity. Qed.

Lemma set_dhcp_reads_system_hostname_witness :
  let st := eth0_boot "router1" in
  let st' := exec (@_set_dhcp idle_control) st in
  let options := options4 (dhcp4 (self st')) in
  nodes (fs st) !! "/etc/hostname" = Some (File ("router1" +:+ String nl ""))
  /\ options !! "hostname" = Some (PStr "router1")
  /\ render template_v4 options = Ok (unlines (conf4_lines options))
  /\ file_writes (added st st')
     = [(conf4 (dhcp4 (self st)), unlines (conf4_lines options))]
  /\ conf4_lines options !! 7%nat
     = Some ("    send host-name " +:+ dq +:+ "router1" +:+ dq +:+ ";").
Proof.
  cbv zeta. split; [vm_compute; reflexivity|].
  apply (@set_dhcp_reads_system_hostname idle_control (eth0_boot "router1")
           "router1" 1);
    vm_compute; reflexivity.
Defined.

Lemma render_v4_optional_send_line_witness :
  List.filter (line_starts (option_statement ClientId))
    (conf4_lines (options4 (dhcp4 (__init__ "eth0")))) = []
  /\ List.filter (line_starts (option_statement ClientId))
       (conf4_lines eth0_options_abc) = [option_line ClientId "abc"].
Proof.
  split.
  - apply (render_v4_optional_send_line ClientId
             (options4 (dhcp4 (__init__ "eth0"))) "").
    vm_compute. reflexivity.
  - apply (render_v4_optional_send_line ClientId eth0_options_abc "abc").
    vm_compute. reflexivity.
Defined.

(** The start line of [eth1] with parameters-only set, word by word. *)
Example start6_line_eth1_words :
  words (start6_line (dhcp6 (self (eth1_with_flags true false))) true false)
  = [ "start-stop-daemon"; "--start"; "--oknodo"; "--quiet"; "--pidfile";
      "/var/lib/dhcp/dhclient_eth1.v6pid"; "--exec"; "/sbin/dhclient"; "--";
      "-6"; "-nw"; "-cf"; "/var/lib/dhcp/dhclient_eth1.v6conf";
      "-pf"; "/var/lib/dhcp/dhclient_eth1.v6pid";
      "-lf"; "/var/lib/dhcp/dhclient_eth1.v6leases"; "-S"; "eth1" ].
Proof. vm_compute. reflexivity. Qed.

(** The same with temporary set instead. *)
Example start6_line_eth1_temporary_words :
  words (start6_line (dhcp6 (self (eth1_with_flags false true))) false true)
  = [ "start-stop-daemon"; "--start"; "--oknodo"; "--quiet"; "--pidfile";
      "/var/lib/dhcp/dhclient_eth1.v6pid"; "--exec"; "/sbin/dhclient"; "--";
      "-6"; "-nw"; "-cf"; "/var/lib/dhcp/dhclient_eth1.v6conf";
      "-pf"; "/var/lib/dhcp/dhclient_eth1.v6pid";
      "-lf"; "/var/lib/dhcp/dhclient_eth1.v6leases"; "-T"; "eth1" ].
Proof. vm_compute. reflexivity. Qed.

Lemma set_dhcpv6_flags_witness :
  let st := eth1_with_flags true false in
  let line := start6_line (dhcp6 (self st)) true false in
  invocations (added st (exec (@_set_dhcpv6 idle_control) st)) = [line]
  /\ words line
     = start6_fixed_args (dhcp6 (self st)) ++ ["-S"] ++ [] ++ [ifname6 (dhcp6 (self st))].
Proof.
  cbv zeta.
  destruct (@set_dhcpv6_flags idle_control (eth1_with_flags true false)
              (PBool true) (PBool false)) as (_ & Hline & Hwords).
  - vm_compute. reflexivity.
  - vm_compute. reflexivity.
  - reflexivity.
  - split.
    + apply (Hline true); vm_compute; reflexivity.
    + apply Hwords. repeat constructor.
Defined.

Lemma stored_paths_distinct_witness :
  stored_path (__init__ "eth0") V4 KPid
  = client_base +:+ "eth0" +:+ extension V4 KPid
  /\ stored_path (__init__ "eth0") V4 KPid <> stored_path (__init__ "eth0") V6 KPid.
Proof.
  apply (stored_paths_distinct "eth0" "eth0" V4 V6 KPid KPid). discriminate.
Defined.

(** * Every path through the start methods *)

Lemma getitem_missing (d : gmap string pyval) (k : string) (st : state) :
  d !! k = None -> getitem d k st = (Raise (KeyError k), st).
Proof. intros E. unfold getitem. by rewrite E. Qed.

Section StartCases.
Context `{Control}.

(** [_set_dhcp] on any state: the lookup of the hostname option, then the
    paths of [set_dhcp_unfold]. *)
Lemma set_dhcp_cases (st : state) :
  _set_dhcp st =
  match options4 (dhcp4 (self st)) !! "hostname" with
  | None => (Raise (KeyError "hostname"), st)
  | Some h =>
      match hostname_resolved h st with
      | Raise x => (Raise x, st)
      | Ok st1 =>
          let e := dhcp4 (self st1) in
          if writable (conf4 e) (fs st1)
          then _cmd (start4_line e)
                 (written (conf4 e) (unlines (conf4_lines (options4 e))) st1)
          else (Raise (OSError (conf4 e)), st1)
      end
  end.
Proof.
  destruct (options4 (dhcp4 (self st)) !! "hostname") as [h|] eqn:Hh.
  - by apply set_dhcp_unfold.
  - unfold _set_dhcp. step.
    by erewrite bind_raise by (by apply getitem_missing).
Qed.

(** [_set_dhcpv6] on any state.  The second lookup of [dhcpv6_temporary]
    comes after the configuration file and the sysfs write. *)
Lemma set_dhcpv6_cases (st : state) :
  _set_dhcpv6 st =
  let e := dhcp6 (self st) in
  match options6 e !! "dhcpv6_prm_only" with
  | None => (Raise (KeyError "dhcpv6_prm_only"), st)
  | Some p =>
      match (if truthy p
             then match options6 e !! "dhcpv6_temporary" with
                  | Some t => Ok (truthy t)
                  | None => Raise (KeyError "dhcpv6_temporary")
                  end
             else Ok false) with
      | Raise x => (Raise x, st)
      | Ok true =>
          (Raise (Exception
                    "DHCPv6 temporary and parameters-only options are mutually exclusive!"),
           st)
      | Ok false =>
          if writable (conf6 e) (fs st)
          then
            let st1 := written (conf6 e) (unlines (conf6_lines (options6 e))) st in
            let w := write_sysfs_effect (accept_ra6 e) 0 (fs st1) in
            let st2 := after (EvSysfs (accept_ra6 e) 0) w.2 st1 in
            match w.1 with
            | Raise x => (Raise x, st2)
            | Ok _ =>
                match options6 e !! "dhcpv6_temporary" with
                | None => (Raise (KeyError "dhcpv6_temporary"), st2)
                | Some t => _cmd (start6_line e (truthy p) (truthy t)) st2
                end
            end
          else (Raise (OSError (conf6 e)), st)
      end
  end.
Proof.
  cbn zeta.
  destruct (options6 (dhcp6 (self st)) !! "dhcpv6_prm_only") as [p|] eqn:Hp.
  2: { unfold _set_dhcpv6. step.
       by erewrite bind_raise by (by apply getitem_missing). }
  destruct (options6 (dhcp6 (self st)) !! "dhcpv6_temporary") as [t|] eqn:Ht.
  { rewrite (set_dhcpv6_unfold st p t Hp Ht). cbn zeta.
    destruct (truthy p), (truthy t); cbn [andb]; try done. }
  unfold _set_dhcpv6. step. step.
  destruct (truthy p) eqn:Tp.
  { erewrite bind_raise; [done|].
    by erewrite bind_raise by (by apply getitem_missing). }
  step. step. step. step. cbn zeta.
  rewrite bind_unfold, write_file_unfold.
  destruct (writable _ _); cbn [fst snd]; [|done].
  rewrite bind_unfold, write_sysfs_unfold. cbn [fst snd].
  destruct (write_sysfs_effect _ _ _).1; [|done].
  step.
  by erewrite bind_raise by (by apply getitem_missing).
Qed.

End StartCases.

(** ** The state in which [_set_dhcp] renders *)

Lemma same_paths_refl (o : DHCP) : same_paths o o.
Proof. by split. Qed.

Lemma same_paths_set_options4 (o : DHCP) (options : gmap string pyval) :
  same_paths o (set_options4 options o).
Proof. by split. Qed.

Lemma same_paths_set_options6 (o : DHCP) (options : gmap string pyval) :
  same_paths o (set_options6 options o).
Proof. by split. Qed.

Lemma same_paths_assign_options4 (o : DHCP) (k : string) (v : pyval) :
  same_paths o (assign_options4 k v o).
Proof. unfold assign_options4. by destruct (shared_options o). Qed.

(** Resolving the hostname leaves the disk, the log and the paths alone;
    of the options only [hostname] can change, in the v4 options and, when
    both entries hold the same dict object, in the v6 options with them. *)
Lemma hostname_resolved_ok (h : pyval) (st st1 : state) :
  hostname_resolved h st = Ok st1 ->
  fs st1 = fs st /\ log st1 = log st
  /\ same_paths (self st) (self st1)
  /\ shared_options (self st1) = shared_options (self st)
  /\ (shared_options (self st) = false ->
      options6 (dhcp6 (self st1)) = options6 (dhcp6 (self st)))
  /\ (options_agree (self st) -> options_agree (self st1))
  /\ (forall key, key <> "hostname" ->
        options4 (dhcp4 (self st1)) !! key = options4 (dhcp4 (self st)) !! key
        /\ options6 (dhcp6 (self st1)) !! key = options6 (dhcp6 (self st)) !! key).
Proof.
  unfold hostname_resolved.
  assert (Hset : forall c,
    let st1 := with_hostname c st in
    fs st1 = fs st /\ log st1 = log st
    /\ same_paths (self st) (self st1)
    /\ shared_options (self st1) = shared_options (self st)
    /\ (shared_options (self st) = false ->
        options6 (dhcp6 (self st1)) = options6 (dhcp6 (self st)))
    /\ (options_agree (self st) -> options_agree (self st1))
    /\ (forall key, key <> "hostname" ->
          options4 (dhcp4 (self st1)) !! key = options4 (dhcp4 (self st)) !! key
          /\ options6 (dhcp6 (self st1)) !! key = options6 (dhcp6 (self st)) !! key)).
  { intros c. cbn zeta. cbn [with_hostname self fs log].
    split; [done|]. split; [done|].
    split; [apply same_paths_assign_options4|].
    split; [apply shared_assign|].
    split; [by rewrite options6_assign; intros ->|].
    split.
    - unfold options_agree. rewrite shared_assign, options4_assign, options6_assign.
      intros Hag Hs. rewrite Hs. by rewrite (Hag Hs).
    - intros key Hk. rewrite options4_assign, options6_assign.
      split; [by rewrite lookup_insert_ne|].
      destruct (shared_options (self st)); [by rewrite lookup_insert_ne | done]. }
  destruct (truthy h).
  { intros [= <-]. split; [done|]. split; [done|].
    split; [apply same_paths_refl|]. done. }
  destruct (nodes (fs st) !! "/etc/hostname") as [[c| |c]|]; try done;
    intros [= <-]; apply Hset.
Qed.

Lemma removals_app (a b : list event) : removals (a ++ b) = removals a ++ removals b.
Proof. apply omap_app. Qed.


(** The clean-up loop leaves every path outside its list as it is. *)
Lemma cleanup_nodes_frame (ps : list string) (st : state) (q : string) :
  q ∉ ps -> nodes (fs (exec (cleanup ps) st)) !! q = nodes (fs st) !! q.
Proof.
  revert st. induction ps as [|p ps IH]; intros st Hq; unfold exec in *; [done|].
  apply not_elem_of_cons in Hq as [Hne Hq].
  rewrite cleanup_cons.
  destruct (isfile p (fs st)); [destruct (refused p (fs st))|]; [done| |by apply IH].
  rewrite IH by done. cbn. by rewrite lookup_delete_ne.
Qed.


Section StopCases.
Context `{Control}.

(** When an external call of [stop] raises, [stop] raises the same and
    ends on the disk that call left. *)
Lemma stop_calls_raise (v : ipver) (st : state) (x : exn) (d : disk) :
  isfile (stored_path (self st) v KPid) (fs st) = true ->
  stop_calls v st = (Raise x, d) ->
  eval (stop v) st = Raise x /\ fs (exec (stop v) st) = d
  /\ removals (added st (exec (stop v) st)) = [].
Proof.
  unfold eval, exec. destruct v; cbn [stop stop_calls stored_path]; intros F E.
  - rewrite del_dhcp_present by done. cbn zeta.
    destruct (cmd_effect _ _) as [[out|y] d1]; cbn in *; [done|].
    injection E as -> ->. by rewrite added_after.
  - rewrite del_dhcpv6_present by done. cbn zeta.
    destruct (cmd_effect _ _) as [[out|y] d1]; cbn [fst snd] in *.
    + destruct (write_sysfs_effect _ _ _) as [[b|y] d2]; cbn in *; [done|].
      injection E as -> ->.
      by rewrite (added_app _ _ [EvCmd _; EvSysfs _ _])
        by (cbn [log after]; by rewrite <- app_assoc).
    + injection E as -> ->. by rewrite added_after.
Qed.

End StopCases.

(** * Further properties of the methods *)

(** ** Options *)

(** X1: the option setters and getters round-trip: after
    [set_dhcp_options] and [set_dhcpv6_options] the getters return the
    dictionaries stored, be the argument a dict of the caller's or the one
    an entry holds already; setting the v4 options leaves the v6 options
    alone and the other way round; neither setter touches a stored path,
    the disk or the log. *)
Theorem set_then_get_options (st : state) (o4 o6 : pydict) :
  eval get_dhcp_options (exec (set_dhcp_options o4) st)
  = Ok (dict_content o4 (self st))
  /\ eval get_dhcpv6_options (exec (set_dhcpv6_options o6) st)
     = Ok (dict_content o6 (self st))
  /\ eval get_dhcpv6_options (exec (set_dhcp_options o4) st)
     = eval get_dhcpv6_options st
  /\ eval get_dhcp_options (exec (set_dhcpv6_options o6) st)
     = eval get_dhcp_options st
  /\ same_paths (self st) (self (exec (set_dhcp_options o4) st))
  /\ same_paths (self st) (self (exec (set_dhcpv6_options o6) st))
  /\ fs (exec (set_dhcp_options o4) st) = fs st
  /\ fs (exec (set_dhcpv6_options o6) st) = fs st
  /\ log (exec (set_dhcp_options o4) st) = log st
  /\ log (exec (set_dhcpv6_options o6) st) = log st.
Proof.
  destruct o4 as [d4|[|]], o6 as [d6|[|]]; repeat split; done.
Qed.

(** With dicts of the caller's the getters return those very dicts. *)
Corollary set_then_get_fresh_dict (st : state) (o4 o6 : gmap string pyval) :
  eval get_dhcp_options (exec (set_dhcp_options (Dict o4)) st) = Ok o4
  /\ eval get_dhcpv6_options (exec (set_dhcpv6_options (Dict o6)) st) = Ok o6.
Proof. done. Qed.

(** The setters keep the two views of a dict held by both entries equal. *)
Lemma setters_keep_options_agree (st : state) (a : pydict) :
  options_agree (self st) ->
  options_agree (self (exec (set_dhcp_options a) st))
  /\ options_agree (self (exec (set_dhcpv6_options a) st)).
Proof.
  unfold options_agree. intros Hag.
  destruct a as [d|[|]]; cbn; split; try done; auto.
Qed.

Section StartExtras.
Context `{Control}.

(** ** [_set_dhcp] *)

(** X2: when the stored v4 options have no [hostname] key, [_set_dhcp]
    raises [KeyError] and the state is the one it started from. *)
Theorem set_dhcp_missing_hostname_key (st : state) :
  options4 (dhcp4 (self st)) !! "hostname" = None ->
  _set_dhcp st = (Raise (KeyError "hostname"), st).
Proof. intros Hh. rewrite set_dhcp_cases. by rewrite Hh. Qed.

(** X3: when the hostname option is false and the system hostname path
    is missing or is a directory, [_set_dhcp] raises [OSError] for that
    path; nothing is written, no command is made, the options are as
    before. *)
Theorem set_dhcp_unreadable_hostname_file (st : state) (h : pyval) :
  options4 (dhcp4 (self st)) !! "hostname" = Some h ->
  truthy h = false ->
  nodes (fs st) !! "/etc/hostname" = None
  \/ nodes (fs st) !! "/etc/hostname" = Some Dir ->
  _set_dhcp st = (Raise (OSError "/etc/hostname"), st).
Proof.
  intros Hh Th F. rewrite set_dhcp_cases, Hh. unfold hostname_resolved.
  rewrite Th. by destruct F as [-> | ->].
Qed.

(** The code does not test the hostname path with [os.path.isfile]: a node
    there that is no regular file and that [open] reads, a device or a
    FIFO, gives the hostname as a regular file does. *)
Lemma set_dhcp_reads_special_hostname_node (st : state) (h : pyval) (c : string) :
  options4 (dhcp4 (self st)) !! "hostname" = Some h ->
  truthy h = false ->
  nodes (fs st) !! "/etc/hostname" = Some (Special c) ->
  isfile "/etc/hostname" (fs st) = false
  /\ options4 (dhcp4 (self (exec _set_dhcp st))) !! "hostname"
     = Some (PStr (rstrip_nl c)).
Proof.
  intros Hh Th F. split; [unfold isfile; by rewrite F|].
  unfold exec. rewrite set_dhcp_cases, Hh. unfold hostname_resolved.
  rewrite Th, F. cbn zeta.
  destruct (writable _ _); [rewrite cmd_unfold|];
    cbn [snd after self written with_hostname];
    rewrite options4_assign; apply lookup_insert_eq.
Qed.

(** X4: when the hostname option is set, [_set_dhcp] does not consult the
    hostname file and leaves the object as it is: it writes the rendering
    under the stored options to the configuration path, then hands the start
    line to [_cmd], and returns what [_cmd] returns. *)
Theorem set_dhcp_keeps_configured_hostname (st : state) (h : pyval) :
  options4 (dhcp4 (self st)) !! "hostname" = Some h ->
  truthy h = true ->
  writable (conf4 (dhcp4 (self st))) (fs st) = true ->
  let e := dhcp4 (self st) in
  let text := unlines (conf4_lines (options4 e)) in
  let st' := exec _set_dhcp st in
  self st' = self st
  /\ added st st' = [EvWrite (conf4 e) text; EvCmd (start4_line e)]
  /\ eval _set_dhcp st
     = (cmd_effect (start4_line e) (fs (written (conf4 e) text st))).1
  /\ conf4_lines (options4 e) !! 7%nat = Some (host_name_line (py_str h)).
Proof.
  intros Hh Th W. cbn zeta. unfold eval, exec.
  rewrite set_dhcp_cases, Hh. unfold hostname_resolved. rewrite Th. cbn zeta.
  rewrite W, cmd_unfold. cbn [fst snd].
  split; [done|]. split.
  - by rewrite (added_app _ _ [EvWrite _ _; EvCmd _])
      by (cbn [log after written]; by rewrite <- !app_assoc).
  - split; [done|]. unfold conf4_lines.
    rewrite (ctx_str_lookup _ _ _ Hh). reflexivity.
Qed.

(** X5: the hostname read from the file sticks.  After a [_set_dhcp] that
    read a non-empty name from the hostname file, a later [_set_dhcp] on
    the same object renders with that name whatever the disk then holds:
    the hostname file is not read again. *)
Theorem set_dhcp_hostname_sticks (st st2 : state) (c : string) :
  options4 (dhcp4 (self st)) !! "hostname" = Some (PStr "") ->
  nodes (fs st) !! "/etc/hostname" = Some (File c) ->
  writable (conf4 (dhcp4 (self st))) (fs st) = true ->
  rstrip_nl c <> "" ->
  self st2 = self (exec _set_dhcp st) ->
  writable (conf4 (dhcp4 (self st2))) (fs st2) = true ->
  let st3 := exec _set_dhcp st2 in
  options4 (dhcp4 (self st3)) !! "hostname" = Some (PStr (rstrip_nl c))
  /\ file_writes (added st2 st3)
     = [(conf4 (dhcp4 (self st2)), unlines (conf4_lines (options4 (dhcp4 (self st2)))))]
  /\ conf4_lines (options4 (dhcp4 (self st2))) !! 7%nat
     = Some (host_name_line (rstrip_nl c)).
Proof.
  intros Hh Hf W Hne Hself W2. cbn zeta.
  assert (Hself' : self (exec _set_dhcp st) = self (with_hostname (rstrip_nl c) st)).
  { unfold exec. rewrite set_dhcp_cases, Hh. unfold hostname_resolved.
    cbn [truthy String.eqb negb]. rewrite Hf. cbn zeta.
    destruct (dhcp4_paths_assign (self st) "hostname" (PStr (rstrip_nl c)))
      as (_ & Hconf & _).
    cbn [with_hostname self fs]. rewrite Hconf, W. by rewrite cmd_unfold. }
  rewrite Hself' in Hself.
  assert (Hh2 : options4 (dhcp4 (self st2)) !! "hostname" = Some (PStr (rstrip_nl c))).
  { rewrite Hself. cbn [with_hostname self]. rewrite options4_assign.
    apply lookup_insert_eq. }
  assert (Th : truthy (PStr (rstrip_nl c)) = true).
  { cbn. apply negb_true_iff. by apply String.eqb_neq. }
  unfold exec. rewrite set_dhcp_cases, Hh2. unfold hostname_resolved.
  rewrite Th. cbn zeta. rewrite W2, cmd_unfold. cbn [snd after self written].
  split; [done|]. split.
  - by rewrite (added_app _ _ [EvWrite _ _; EvCmd _])
      by (cbn [log after written]; by rewrite <- !app_assoc).
  - unfold conf4_lines. rewrite (ctx_str_lookup _ _ _ Hh2). reflexivity.
Qed.

(** Every command [_set_dhcp] hands to [_cmd] is the start line. *)
Lemma set_dhcp_invocations (st : state) (c : string) :
  c ∈ invocations (added st (exec _set_dhcp st)) ->
  c = start4_line (dhcp4 (self st)).
Proof.
  unfold exec. rewrite set_dhcp_cases.
  destruct (options4 (dhcp4 (self st)) !! "hostname") as [h|]; cbn [snd].
  2: { rewrite (added_app _ _ []) by (by rewrite app_nil_r). by intros ?%elem_of_nil. }
  destruct (hostname_resolved h st) as [st1|x] eqn:E; cbn [snd].
  2: { rewrite (added_app _ _ []) by (by rewrite app_nil_r). by intros ?%elem_of_nil. }
  destruct (hostname_resolved_ok h st st1 E) as (Hfs & Hlog & Hsp & _).
  cbn zeta. destruct (writable _ _); cbn [snd].
  2: { rewrite (added_app _ _ []) by (by rewrite Hlog, app_nil_r).
       by intros ?%elem_of_nil. }
  rewrite cmd_unfold. cbn [snd].
  rewrite (added_app _ _ [EvWrite _ _; EvCmd _])
    by (cbn [log after written]; by rewrite Hlog, <- !app_assoc).
  intros ->%list_elem_of_singleton.
  unfold start4_line.
  rewrite (sp_stored _ _ Hsp V4 KPid : pid4 _ = pid4 _).
  rewrite (sp_stored _ _ Hsp V4 KConf : conf4 _ = conf4 _).
  rewrite (sp_stored _ _ Hsp V4 KLease : lease4 _ = lease4 _).
  by rewrite (sp_ifname4 _ _ Hsp).
Qed.

Lemma start4_line_unwords (e : entry4) : start4_line e = unwords (start4_args e).
Proof.
  unfold start4_line, start4_args. cbn [unwords].
  rewrite ?append_assoc. reflexivity.
Qed.

(** X6: whatever the state, a command line that [_set_dhcp] hands to
    [_cmd] is the start line built from the stored paths; when the name and
    the paths are one word each, its argument vector is the supervisor's
    arguments, [--], then [-4 -nw -cf conf -pf pid -lf lease] and the
    interface name. *)
Theorem set_dhcp_command_line (st : state) :
  let e := dhcp4 (self st) in
  (forall c, c ∈ invocations (added st (exec _set_dhcp st)) -> c = start4_line e)
  /\ (Forall (fun w => one_word w = true) [ifname4 e; conf4 e; pid4 e; lease4 e] ->
      words (start4_line e) = start4_args e).
Proof.
  cbn zeta. split; [apply set_dhcp_invocations|].
  intros Hw.
  apply Forall_cons in Hw as [Hi Hw]. apply Forall_cons in Hw as [Hc Hw].
  apply Forall_cons in Hw as [Hp Hw]. apply Forall_cons in Hw as [Hl _].
  rewrite start4_line_unwords. apply words_unwords. unfold start4_args.
  repeat (apply Forall_cons; split); try done; apply Forall_nil_2.
Qed.

(** ** [_set_dhcpv6] *)

(** X7: a key missing where the exclusivity check looks it up makes
    [_set_dhcpv6] raise [KeyError] with the state untouched: a missing
    [dhcpv6_prm_only], or a missing [dhcpv6_temporary] when
    [dhcpv6_prm_only] is true. *)
Theorem set_dhcpv6_missing_key_early (st : state) (k : string) :
  (options6 (dhcp6 (self st)) !! "dhcpv6_prm_only" = None /\ k = "dhcpv6_prm_only")
  \/ (exists p, options6 (dhcp6 (self st)) !! "dhcpv6_prm_only" = Some p
                /\ truthy p = true
                /\ options6 (dhcp6 (self st)) !! "dhcpv6_temporary" = None
                /\ k = "dhcpv6_temporary") ->
  _set_dhcpv6 st = (Raise (KeyError k), st).
Proof.
  rewrite set_dhcpv6_cases. cbn zeta.
  intros [[Hp ->] | (p & Hp & Tp & Ht & ->)]; rewrite Hp; [done|].
  by rewrite Tp, Ht.
Qed.

(** X8: with [dhcpv6_prm_only] false and [dhcpv6_temporary] missing, the
    missing key is found only when the command line is assembled:
    [_set_dhcpv6] has by then written the configuration file and written
    [0] to [accept_ra]; it raises [KeyError] and hands nothing to [_cmd]. *)
Theorem set_dhcpv6_missing_key_late (st : state) (p : pyval) (b : bool) :
  options6 (dhcp6 (self st)) !! "dhcpv6_prm_only" = Some p ->
  truthy p = false ->
  options6 (dhcp6 (self st)) !! "dhcpv6_temporary" = None ->
  let e := dhcp6 (self st) in
  let text := unlines (conf6_lines (options6 e)) in
  writable (conf6 e) (fs st) = true ->
  (write_sysfs_effect (accept_ra6 e) 0 (fs (written (conf6 e) text st))).1 = Ok b ->
  eval _set_dhcpv6 st = Raise (KeyError "dhcpv6_temporary")
  /\ added st (exec _set_dhcpv6 st) = [EvWrite (conf6 e) text; EvSysfs (accept_ra6 e) 0].
Proof.
  intros Hp Tp Ht. cbn zeta. intros W S. unfold eval, exec.
  rewrite set_dhcpv6_cases. cbn zeta. rewrite Hp, Tp, W, S, Ht. cbn [fst snd].
  split; [done|].
  by rewrite (added_app _ _ [EvWrite _ _; EvSysfs _ _])
    by (cbn [log after written]; by rewrite <- !app_assoc).
Qed.

(** X9: with both options present and not both true, a writable
    configuration path and a sysfs write that returns, [_set_dhcpv6] writes
    the configuration file, then writes [0] to [accept_ra], then hands the
    start line to [_cmd], in this order and nothing else; it returns what
    [_cmd] returns and leaves the object as it is. *)
Theorem set_dhcpv6_effects_in_order (st : state) (p t : pyval) (b : bool) :
  options6 (dhcp6 (self st)) !! "dhcpv6_prm_only" = Some p ->
  options6 (dhcp6 (self st)) !! "dhcpv6_temporary" = Some t ->
  truthy p && truthy t = false ->
  let e := dhcp6 (self st) in
  let text := unlines (conf6_lines (options6 e)) in
  let line := start6_line e (truthy p) (truthy t) in
  let w := write_sysfs_effect (accept_ra6 e) 0 (fs (written (conf6 e) text st)) in
  writable (conf6 e) (fs st) = true ->
  w.1 = Ok b ->
  added st (exec _set_dhcpv6 st)
  = [EvWrite (conf6 e) text; EvSysfs (accept_ra6 e) 0; EvCmd line]
  /\ eval _set_dhcpv6 st = (cmd_effect line w.2).1
  /\ self (exec _set_dhcpv6 st) = self st.
Proof.
  intros Hp Ht B. cbn zeta. intros W S. unfold eval, exec.
  rewrite (set_dhcpv6_unfold st p t Hp Ht), B. cbn zeta.
  rewrite W, S, cmd_unfold. cbn [fst snd]. split; [|done].
  by rewrite (added_app _ _ [EvWrite _ _; EvSysfs _ _; EvCmd _])
    by (cbn [log after written]; by rewrite <- !app_assoc).
Qed.

(** X10: when the configuration path cannot be opened for writing,
    [_set_dhcpv6] raises [OSError] for it and the state is the one it
    started from: [accept_ra] is not written and no command is made. *)
Theorem set_dhcpv6_unwritable_conf (st : state) (p t : pyval) :
  options6 (dhcp6 (self st)) !! "dhcpv6_prm_only" = Some p ->
  options6 (dhcp6 (self st)) !! "dhcpv6_temporary" = Some t ->
  truthy p && truthy t = false ->
  writable (conf6 (dhcp6 (self st))) (fs st) = false ->
  _set_dhcpv6 st = (Raise (OSError (conf6 (dhcp6 (self st)))), st).
Proof.
  intros Hp Ht B W. rewrite (set_dhcpv6_unfold st p t Hp Ht), B. cbn zeta.
  by rewrite W.
Qed.

(** X11: when the sysfs write raises, [_set_dhcpv6] raises the same
    exception after the configuration file was written; no command is
    handed to [_cmd]. *)
Theorem set_dhcpv6_sysfs_failure (st : state) (p t : pyval) (x : exn) :
  options6 (dhcp6 (self st)) !! "dhcpv6_prm_only" = Some p ->
  options6 (dhcp6 (self st)) !! "dhcpv6_temporary" = Some t ->
  truthy p && truthy t = false ->
  let e := dhcp6 (self st) in
  let text := unlines (conf6_lines (options6 e)) in
  writable (conf6 e) (fs st) = true ->
  (write_sysfs_effect (accept_ra6 e) 0 (fs (written (conf6 e) text st))).1 = Raise x ->
  eval _set_dhcpv6 st = Raise x
  /\ added st (exec _set_dhcpv6 st) = [EvWrite (conf6 e) text; EvSysfs (accept_ra6 e) 0].
Proof.
  intros Hp Ht B. cbn zeta. intros W S. unfold eval, exec.
  rewrite (set_dhcpv6_unfold st p t Hp Ht), B. cbn zeta.
  rewrite W, S. cbn [fst snd]. split; [done|].
  by rewrite (added_app _ _ [EvWrite _ _; EvSysfs _ _])
    by (cbn [log after written]; by rewrite <- !app_assoc).
Qed.

(** The events [_set_dhcpv6] can add, whatever the state: none, or the
    configuration write and the sysfs write, or these and one command. *)
Lemma set_dhcpv6_added (st : state) :
  let e := dhcp6 (self st) in
  let wr := EvWrite (conf6 e) (unlines (conf6_lines (options6 e))) in
  let sy := EvSysfs (accept_ra6 e) 0 in
  added st (exec _set_dhcpv6 st) = []
  \/ added st (exec _set_dhcpv6 st) = [wr; sy]
  \/ exists line, added st (exec _set_dhcpv6 st) = [wr; sy; EvCmd line].
Proof.
  cbn zeta. unfold exec. rewrite set_dhcpv6_cases. cbn zeta.
  assert (Hnone : forall r : result string, added st (r, st).2 = []).
  { intros r. cbn [snd]. by rewrite (added_app _ _ []) by (by rewrite app_nil_r). }
  destruct (options6 (dhcp6 (self st)) !! "dhcpv6_prm_only") as [p|];
    [|left; apply Hnone].
  destruct (if truthy p
            then match options6 (dhcp6 (self st)) !! "dhcpv6_temporary" with
                 | Some t => Ok (truthy t)
                 | None => Raise (KeyError "dhcpv6_temporary")
                 end
            else Ok false) as [[]|x]; [left; apply Hnone | | left; apply Hnone].
  destruct (writable _ _); [|left; apply Hnone]. right.
  destruct (write_sysfs_effect _ _ _) as [[b|x] d]; cbn [fst snd].
  - destruct (options6 (dhcp6 (self st)) !! "dhcpv6_temporary") as [t|]; cbn [snd].
    + right. eexists. rewrite cmd_unfold. cbn [snd].
      by rewrite (added_app _ _ [EvWrite _ _; EvSysfs _ _; EvCmd _])
        by (cbn [log after written]; by rewrite <- !app_assoc).
    + left. by rewrite (added_app _ _ [EvWrite _ _; EvSysfs _ _])
        by (cbn [log after written]; by rewrite <- !app_assoc).
  - left. by rewrite (added_app _ _ [EvWrite _ _; EvSysfs _ _])
      by (cbn [log after written]; by rewrite <- !app_assoc).
Qed.

(** X12: whatever the state, a sysfs write made by [_set_dhcpv6] is the
    value [0] written to the [accept_ra] path, and it comes right after the
    configuration file was written. *)
Theorem set_dhcpv6_accept_ra_write (st : state) (path : string) (v : Z) :
  (path, v) ∈ sysfs_writes (added st (exec _set_dhcpv6 st)) ->
  let e := dhcp6 (self st) in
  path = accept_ra6 e /\ v = 0%Z
  /\ exists rest,
       added st (exec _set_dhcpv6 st)
       = EvWrite (conf6 e) (unlines (conf6_lines (options6 e)))
         :: EvSysfs (accept_ra6 e) 0 :: rest.
Proof.
  cbn zeta.
  destruct (set_dhcpv6_added st) as [E | [E | [line E]]]; rewrite E; cbn.
  - by intros ?%elem_of_nil.
  - intros Hin%list_elem_of_singleton. injection Hin as -> ->. eauto.
  - intros Hin%list_elem_of_singleton. injection Hin as -> ->. eauto.
Qed.

(** X13: the v4 methods never write to sysfs, whatever the state. *)
Theorem v4_never_writes_sysfs (st : state) :
  sysfs_writes (added st (exec _set_dhcp st)) = []
  /\ sysfs_writes (added st (exec _del_dhcp st)) = [].
Proof.
  split.
  - unfold exec. rewrite set_dhcp_cases.
    assert (Hnone : forall (r : result string) s, log s = log st ->
              sysfs_writes (added st (r, s).2) = []).
    { intros r s E. cbn [snd]. by rewrite (added_app _ _ []) by (by rewrite E, app_nil_r). }
    destruct (options4 (dhcp4 (self st)) !! "hostname") as [h|]; [|by apply Hnone].
    destruct (hostname_resolved h st) as [st1|x] eqn:E; [|by apply Hnone].
    destruct (hostname_resolved_ok h st st1 E) as (_ & Hlog & _).
    cbn zeta. destruct (writable _ _); [|by apply Hnone].
    rewrite cmd_unfold. cbn [snd].
    by rewrite (added_app _ _ [EvWrite _ _; EvCmd _])
      by (cbn [log after written]; by rewrite Hlog, <- !app_assoc).
  - unfold exec. destruct (isfile (pid4 (dhcp4 (self st))) (fs st)) eqn:F.
    + rewrite del_dhcp_present by done. cbn zeta.
      destruct (cmd_effect _ _) as [[out|x] d]; cbn [fst snd].
      * match goal with
        | |- context [ cleanup ?ps ?s ] =>
            destruct (added_cleanup ps st s [EvCmd (release4_line (dhcp4 (self st)))])
              as [_ Hw]
        end; [done|]. unfold exec in Hw. by rewrite Hw.
      * by rewrite added_after.
    + rewrite del_dhcp_absent by done. cbn [snd]. by rewrite added_after.
Qed.

End StartExtras.

Section StopExtras.
Context `{Control}.

(** ** [_del_dhcp] and [_del_dhcpv6] *)

Lemma release4_line_unwords (e : entry4) : release4_line e = unwords (release4_args e).
Proof.
  unfold release4_line, release4_args. cbn [unwords].
  rewrite ?append_assoc. reflexivity.
Qed.

(** X14: once the pid file is found, [_del_dhcp] hands exactly one command
    line to [_cmd], whatever that call then does: dhclient in release mode
    on the stored paths; when the name and the paths are one word each its
    argument vector is [-cf conf -pf pid -lf lease -r] and the interface
    name. *)
Theorem del_dhcp_release_line (st : state) :
  isfile (pid4 (dhcp4 (self st))) (fs st) = true ->
  let e := dhcp4 (self st) in
  invocations (added st (exec _del_dhcp st)) = [release4_line e]
  /\ (Forall (fun w => one_word w = true) [ifname4 e; conf4 e; pid4 e; lease4 e] ->
      words (release4_line e) = release4_args e).
Proof.
  intros F. cbn zeta. split.
  - unfold exec. rewrite del_dhcp_present by done. cbn zeta.
    destruct (cmd_effect _ _) as [[out|x] d]; cbn [fst snd].
    + match goal with
      | |- context [ cleanup ?ps ?s ] =>
          destruct (added_cleanup ps st s [EvCmd (release4_line (dhcp4 (self st)))])
            as [Hi _]
      end; [done|]. unfold exec in Hi. by rewrite Hi.
    + by rewrite added_after.
  - intros Hw.
    apply Forall_cons in Hw as [Hi Hw]. apply Forall_cons in Hw as [Hc Hw].
    apply Forall_cons in Hw as [Hp Hw]. apply Forall_cons in Hw as [Hl _].
    rewrite release4_line_unwords. apply words_unwords. unfold release4_args.
    repeat (apply Forall_cons; split); try done; apply Forall_nil_2.
Qed.

(** X15: when an external call of [stop] raises (the release or stop
    command, or for v6 the [accept_ra] write), [stop] raises the same
    exception and removes nothing: the disk is the one that call left. *)
Theorem stop_call_failure_skips_cleanup (v : ipver) (st : state)
    (x : exn) (d : disk) :
  isfile (stored_path (self st) v KPid) (fs st) = true ->
  stop_calls v st = (Raise x, d) ->
  eval (stop v) st = Raise x
  /\ fs (exec (stop v) st) = d
  /\ removals (added st (exec (stop v) st)) = [].
Proof. apply stop_calls_raise. Qed.

(** X16: when the supervisor command of [_del_dhcpv6] raises, the
    [accept_ra] write is not made: router advertisements stay as the start
    left them. *)
Theorem del_dhcpv6_cmd_failure_keeps_accept_ra (st : state) (x : exn) :
  isfile (pid6 (dhcp6 (self st))) (fs st) = true ->
  (cmd_effect (stop6_line (dhcp6 (self st))) (fs st)).1 = Raise x ->
  eval _del_dhcpv6 st = Raise x
  /\ added st (exec _del_dhcpv6 st) = [EvCmd (stop6_line (dhcp6 (self st)))].
Proof.
  intros F E. unfold eval, exec. rewrite del_dhcpv6_present by done. cbn zeta.
  rewrite E. cbn [fst snd]. by rewrite added_after.
Qed.

(** X17: [stop] removes nothing but its own three paths: once the external
    calls have returned, every other path holds after [stop] what it held
    after those calls, and the refusals are the same. *)
Theorem stop_touches_only_its_paths (v : ipver) (st : state) (d : disk) (q : string) :
  isfile (stored_path (self st) v KPid) (fs st) = true ->
  stop_calls v st = (Ok tt, d) ->
  (forall k, q <> stored_path (self st) v k) ->
  nodes (fs (exec (stop v) st)) !! q = nodes d !! q
  /\ denied (fs (exec (stop v) st)) = denied d.
Proof.
  intros F E Hq. destruct (stop_present v st d F E) as (st1 & Es & Hself & Hfs).
  unfold exec. rewrite Es. split.
  - rewrite <- Hfs. apply cleanup_nodes_frame.
    intros [k ->]%elem_of_stored_paths. by apply (Hq k).
  - rewrite <- Hfs. apply (or_denied _ _ (cleanup_only_removals _ st1)).
Qed.

(** X18: the clean-up stops at the first refusal.  When the configuration
    file cannot be unlinked, [stop] raises [OSError] for it and removes
    nothing: the pid and lease files are left as they were. *)
Theorem stop_aborts_at_refused_conf (v : ipver) (st : state) (d : disk) :
  isfile (stored_path (self st) v KPid) (fs st) = true ->
  stop_calls v st = (Ok tt, d) ->
  isfile (stored_path (self st) v KConf) d = true ->
  refused (stored_path (self st) v KConf) d = true ->
  eval (stop v) st = Raise (OSError (stored_path (self st) v KConf))
  /\ fs (exec (stop v) st) = d.
Proof.
  intros F E Fc Rc. destruct (stop_present v st d F E) as (st1 & Es & Hself & Hfs).
  unfold eval, exec. rewrite Es, cleanup_cons, Hfs, Fc, Rc. done.
Qed.

(** X19: [stop] is idempotent.  Whenever [stop] returns successfully, a
    second [stop] right after it returns successfully, hands nothing to
    [_cmd], writes nothing to sysfs and leaves the disk as it is. *)
Theorem stop_is_idempotent (v : ipver) (st : state) :
  eval (stop v) st = Ok tt ->
  let st' := exec (stop v) st in
  eval (stop v) st' = Ok tt
  /\ fs (exec (stop v) st') = fs st'
  /\ invocations (added st' (exec (stop v) st')) = []
  /\ sysfs_writes (added st' (exec (stop v) st')) = [].
Proof.
  intros Hok. cbn zeta. pose proof (stop_twice v st Hok) as F.
  destruct (stop_absent v _ F) as [msg E].
  generalize dependent (exec (stop v) st). intros st' _ E.
  unfold eval, exec. rewrite E. cbn [fst snd after fs].
  by rewrite added_after.
Qed.

(** The object after [stop] is the object before. *)
Lemma stop_keeps_self (v : ipver) (st : state) : self (exec (stop v) st) = self st.
Proof.
  destruct (isfile (stored_path (self st) v KPid) (fs st)) eqn:F.
  2: { destruct (stop_absent v st F) as [msg E]. unfold exec. by rewrite E. }
  destruct (stop_calls v st) as [[[]|x] d] eqn:E.
  - destruct (stop_present v st d F E) as (st1 & Es & Hself & Hfs).
    unfold exec. rewrite Es, <- Hself.
    apply (or_self _ _ (cleanup_only_removals _ st1)).
  - revert E. unfold exec. destruct v; cbn [stop stop_calls stored_path] in *.
    + rewrite del_dhcp_present by done. cbn zeta.
      by destruct (cmd_effect _ _) as [[out|y] d1].
    + rewrite del_dhcpv6_present by done. cbn zeta.
      destruct (cmd_effect _ _) as [[out|y] d1]; cbn [fst snd]; [|done].
      by destruct (write_sysfs_effect _ _ _) as [[b|y] d2].
Qed.

(** The object after [_set_dhcpv6] is the object before. *)
Lemma set_dhcpv6_keeps_self (st : state) : self (exec _set_dhcpv6 st) = self st.
Proof.
  unfold exec. rewrite set_dhcpv6_cases. cbn zeta.
  destruct (options6 (dhcp6 (self st)) !! "dhcpv6_prm_only") as [p|]; [|done].
  destruct (if truthy p
            then match options6 (dhcp6 (self st)) !! "dhcpv6_temporary" with
                 | Some t => Ok (truthy t)
                 | None => Raise (KeyError "dhcpv6_temporary")
                 end
            else Ok false) as [[]|x]; try done.
  destruct (writable _ _); [|done].
  destruct (write_sysfs_effect _ _ _) as [[b|x] d]; cbn [fst snd]; [|done].
  destruct (options6 (dhcp6 (self st)) !! "dhcpv6_temporary") as [t|]; [|done].
  by rewrite cmd_unfold.
Qed.

(** What [_set_dhcp] can do to the object, in every outcome: the stored
    paths stay, the two entries hold one dict after it exactly when they
    did before, and the options change at most at the key [hostname]. *)
Lemma set_dhcp_object (st : state) :
  let o := self st in
  let o' := self (exec _set_dhcp st) in
  same_paths o o'
  /\ shared_options o' = shared_options o
  /\ (shared_options o = false -> options6 (dhcp6 o') = options6 (dhcp6 o))
  /\ (options_agree o -> options_agree o')
  /\ (forall key, key <> "hostname" ->
        options4 (dhcp4 o') !! key = options4 (dhcp4 o) !! key
        /\ options6 (dhcp6 o') !! key = options6 (dhcp6 o) !! key).
Proof.
  cbn zeta.
  assert (Hsame : forall o : DHCP,
    same_paths o o
    /\ shared_options o = shared_options o
    /\ (shared_options o = false -> options6 (dhcp6 o) = options6 (dhcp6 o))
    /\ (options_agree o -> options_agree o)
    /\ (forall key, key <> "hostname" ->
          options4 (dhcp4 o) !! key = options4 (dhcp4 o) !! key
          /\ options6 (dhcp6 o) !! key = options6 (dhcp6 o) !! key)).
  { intros o. split; [apply same_paths_refl | done]. }
  unfold exec. rewrite set_dhcp_cases.
  destruct (options4 (dhcp4 (self st)) !! "hostname") as [h|]; [|apply Hsame].
  destruct (hostname_resolved h st) as [st1|x] eqn:E; [|apply Hsame].
  destruct (hostname_resolved_ok h st st1 E) as (_ & _ & Hrest).
  cbn zeta. destruct (writable _ _); [rewrite cmd_unfold|];
    cbn [snd after self written]; exact Hrest.
Qed.

(** X20: the methods never change what the constructor stored but the
    options.  After [start] or [stop] for either version, in every outcome,
    the interface names, the config, pid and lease paths and the
    [accept_ra] path are as before, and the two option entries hold one
    dict object exactly when they did before.  [stop] and the v6 [start]
    leave the whole object as it is.  The v4 [start] changes the options at
    most at the key [hostname]: always in the v4 options only, unless the
    v6 entry holds the same dict object, in which case the v6 options show
    the same change and the two stay equal. *)
Theorem methods_keep_stored_paths (v : ipver) (st : state) :
  let o := self st in
  let o' := self (exec (start v) st) in
  same_paths o o'
  /\ shared_options o' = shared_options o
  /\ (shared_options o = false -> options6 (dhcp6 o') = options6 (dhcp6 o))
  /\ (options_agree o -> options_agree o')
  /\ (forall key, key <> "hostname" ->
        options4 (dhcp4 o') !! key = options4 (dhcp4 o) !! key
        /\ options6 (dhcp6 o') !! key = options6 (dhcp6 o) !! key)
  /\ self (exec (start V6) st) = self st
  /\ self (exec (stop v) st) = self st.
Proof.
  cbn zeta.
  assert (H4 := set_dhcp_object st). cbn zeta in H4.
  destruct H4 as (Hsp & Hsh & H6 & Hag & Hkey).
  assert (E6 := set_dhcpv6_keeps_self st).
  assert (Es := stop_keeps_self v st).
  destruct v; cbn [start].
  - done.
  - rewrite E6. split; [apply same_paths_refl | done].
Qed.

End StopExtras.

Section NeverExtras.
Context `{Control}.




(** X22: an object as the constructor builds it (default v6 options: both
    flags false) starts the v6 client with neither [-S] nor [-T]: when the
    configuration file can be written and the sysfs write returns, the one
    command line handed to [_cmd] is the start line without flags, whose
    argument vector for a one-word interface name is the fixed arguments
    followed by the name. *)
Theorem fresh_v6_start_has_no_flags (n : string) (st : state) (b : bool) :
  self st = __init__ n ->
  let e := dhcp6 (__init__ n) in
  let text := unlines (conf6_lines (options6 e)) in
  writable (conf6 e) (fs st) = true ->
  (write_sysfs_effect (accept_ra6 e) 0 (fs (written (conf6 e) text st))).1 = Ok b ->
  invocations (added st (exec _set_dhcpv6 st)) = [start6_line e false false]
  /\ (one_word n = true -> words (start6_line e false false) = start6_fixed_args e ++ [n]).
Proof.
  intros Hself. cbn zeta. intros W S. split.
  - rewrite (set_dhcpv6_invocations st (PBool false) (PBool false));
      rewrite ?Hself; try reflexivity.
    cbn zeta. by rewrite W, S.
  - intros Hn.
    apply (start6_line_words (dhcp6 (__init__ n)) false false).
    apply (init_one_word n (options6 (dhcp6 (__init__ n))) Hn).
Qed.

End NeverExtras.

(** ** Paths and templates *)

Lemma append_inj_r (a b s : string) : a +:+ s = b +:+ s -> a = b.
Proof.
  intros E. apply suffixes_reversed in E.
  apply app_inv_head in E. by apply chars_inj, (inj reverse).
Qed.

(** X23: the [accept_ra] path stored by the constructor determines the
    interface name, and it is none of the config, pid and lease paths of any
    interface, so the clean-up of [stop] never names it. *)
Theorem accept_ra_path_apart (n n' : string) (v : ipver) (k : kind) :
  accept_ra6 (dhcp6 (__init__ n)) <> stored_path (__init__ n') v k
  /\ (accept_ra6 (dhcp6 (__init__ n)) = accept_ra6 (dhcp6 (__init__ n')) -> n = n').
Proof.
  split.
  - rewrite stored_path_init. cbn [accept_ra6 dhcp6 __init__].
    unfold client_base. intros E. discriminate E.
  - cbn [accept_ra6 dhcp6 __init__]. intros E.
    apply (inj (String.app "/proc/sys/net/ipv6/conf/")) in E.
    by apply append_inj_r in E.
Qed.

(** X24: rendering the v6 template never fails and looks at the [intf]
    option only: two option dictionaries with the same [intf] entry, present
    or not, give the same configuration text, whatever their flags. *)
Theorem render_v6_only_intf (ctx ctx' : gmap string pyval) :
  ctx !! "intf" = ctx' !! "intf" ->
  render template_v6 ctx = render template_v6 ctx'
  /\ render template_v6 ctx = Ok (unlines (conf6_lines ctx)).
Proof.
  intros E. rewrite !render_v6. split; [|done].
  unfold conf6_lines, ctx_str, ctx_get. by rewrite E.
Qed.

(** X25: an option that is missing from the v4 dictionary is no error for
    the template: rendering succeeds and no line starts with the [send]
    statement of that option. *)
Theorem render_v4_missing_option (o : send_option) (ctx : gmap string pyval) :
  ctx !! option_name o = None ->
  render template_v4 ctx = Ok (unlines (conf4_lines ctx))
  /\ List.filter (line_starts (option_statement o)) (conf4_lines ctx) = [].
Proof.
  intros Hc. split; [apply render_v4|]. unfold conf4_lines.
  assert (Ht : ctx_test ctx (option_name o) = false).
  { unfold ctx_test, ctx_get. by rewrite Hc. }
  generalize (ctx_str ctx "intf") (ctx_str ctx "hostname"). intros i h.
  destruct o; cbn [option_name option_statement] in *; rewrite Ht.
  - generalize (ctx_str ctx "vendor_class_id"). intros w.
    destruct (ctx_test ctx "vendor_class_id"); reflexivity.
  - generalize (ctx_str ctx "client_id"). intros w.
    destruct (ctx_test ctx "client_id"); reflexivity.
Qed.

Section CycleExtras.
Context `{Control}.

(** X26: a v6 start followed by a v6 stop toggles router advertisements
    off and on again.  When the start goes through, the pid file is there
    for the stop and the external calls of the stop return, the sysfs writes
    of the two runs are [0] and then [1], both to the [accept_ra] path, and
    the commands are the start line and then the stop line. *)
Theorem v6_cycle_toggles_accept_ra (st : state) (p t : pyval) (b : bool) (d : disk) :
  options6 (dhcp6 (self st)) !! "dhcpv6_prm_only" = Some p ->
  options6 (dhcp6 (self st)) !! "dhcpv6_temporary" = Some t ->
  truthy p && truthy t = false ->
  let e := dhcp6 (self st) in
  let text := unlines (conf6_lines (options6 e)) in
  writable (conf6 e) (fs st) = true ->
  (write_sysfs_effect (accept_ra6 e) 0 (fs (written (conf6 e) text st))).1 = Ok b ->
  let st1 := exec _set_dhcpv6 st in
  isfile (pid6 e) (fs st1) = true ->
  stop_calls V6 st1 = (Ok tt, d) ->
  let st2 := exec _del_dhcpv6 st1 in
  sysfs_writes (added st st2) = [(accept_ra6 e, 0%Z); (accept_ra6 e, 1%Z)]
  /\ invocations (added st st2)
     = [start6_line e (truthy p) (truthy t); stop6_line e].
Proof.
  intros Hp Ht B. cbn zeta. intros W S.
  assert (E1 : self (exec _set_dhcpv6 st) = self st
               /\ log (exec _set_dhcpv6 st)
                  = log st ++ [EvWrite (conf6 (dhcp6 (self st)))
                                 (unlines (conf6_lines (options6 (dhcp6 (self st)))));
                               EvSysfs (accept_ra6 (dhcp6 (self st))) 0;
                               EvCmd (start6_line (dhcp6 (self st)) (truthy p) (truthy t))]).
  { unfold exec. rewrite (set_dhcpv6_unfold st p t Hp Ht), B. cbn zeta.
    rewrite W, S, cmd_unfold. cbn [fst snd log after written self].
    split; [done|]. by rewrite <- !app_assoc. }
  destruct E1 as [Hself Hlog].
  generalize dependent (exec _set_dhcpv6 st). intros st1 Hself Hlog F Ecalls.
  rewrite <- Hself in F.
  assert (E2 : exists evs,
            log (exec _del_dhcpv6 st1)
            = log st1 ++ [EvCmd (stop6_line (dhcp6 (self st1)));
                          EvSysfs (accept_ra6 (dhcp6 (self st1))) 1] ++ evs
            /\ invocations evs = [] /\ sysfs_writes evs = []).
  { cbn [stop_calls] in Ecalls.
    destruct (cmd_effect (stop6_line (dhcp6 (self st1))) (fs st1))
      as [[out|x] d1] eqn:Ec; cbn [fst snd] in Ecalls; [|done].
    destruct (write_sysfs_effect (accept_ra6 (dhcp6 (self st1))) 1 d1)
      as [[b'|x] d2] eqn:Ew; cbn [fst snd] in Ecalls; [|done].
    unfold exec. rewrite del_dhcpv6_present by done. cbn zeta.
    rewrite Ec. cbn [fst snd]. rewrite Ew. cbn [fst snd].
    match goal with
    | |- context [ cleanup ?ps ?s ] =>
        destruct (or_log _ _ (cleanup_only_removals ps s)) as (evs & E & Hi & Hw)
    end.
    exists evs. unfold exec in E. rewrite E. cbn [log after].
    split; [by rewrite <- !app_assoc | done]. }
  destruct E2 as (evs & E2 & Hi & Hw).
  rewrite (added_trans st st1 _ _ _ Hlog E2).
  rewrite !sysfs_writes_app, !invocations_app, Hi, Hw, Hself. done.
Qed.

End CycleExtras.

(** * The further properties at concrete inputs *)

Lemma set_dhcp_missing_hostname_key_witness :
  @_set_dhcp idle_control (eth0_with_options ∅)
  = (Raise (KeyError "hostname"), eth0_with_options ∅).
Proof.
  apply (@set_dhcp_missing_hostname_key idle_control (eth0_with_options ∅)).
  vm_compute. reflexivity.
Defined.

Lemma set_dhcp_unreadable_hostname_file_witness :
  nodes running4_disk !! "/etc/hostname" = None
  /\ @_set_dhcp idle_control (fresh "eth0" running4_disk)
     = (Raise (OSError "/etc/hostname"), fresh "eth0" running4_disk).
Proof.
  split; [vm_compute; reflexivity|].
  apply (@set_dhcp_unreadable_hostname_file idle_control
           (fresh "eth0" running4_disk) (PStr ""));
    [vm_compute; reflexivity | vm_compute; reflexivity
    | left; vm_compute; reflexivity].
Defined.

(** A hostname path that is a device node holding [gw] and a newline: no
    regular file, and the hostname option becomes [gw]. *)
Example set_dhcp_special_hostname_node_gw :
  let st := fresh "eth0" (special_hostname_disk ("gw" +:+ String nl "")) in
  isfile "/etc/hostname" (fs st) = false
  /\ options4 (dhcp4 (self (exec (@_set_dhcp idle_control) st))) !! "hostname"
     = Some (PStr "gw").
Proof. vm_compute. done. Qed.

Lemma set_dhcp_keeps_configured_hostname_witness :
  let st := eth0_with_options eth0_options_vyos in
  let e := dhcp4 (self st) in
  let text := unlines (conf4_lines (options4 e)) in
  let st' := exec (@_set_dhcp idle_control) st in
  self st' = self st
  /\ added st st' = [EvWrite (conf4 e) text; EvCmd (start4_line e)]
  /\ eval (@_set_dhcp idle_control) st
     = (@cmd_effect idle_control (start4_line e) (fs (written (conf4 e) text st))).1
  /\ conf4_lines (options4 e) !! 7%nat = Some (host_name_line (py_str (PStr "vyos"))).
Proof.
  cbv zeta.
  apply (@set_dhcp_keeps_configured_hostname idle_control
           (eth0_with_options eth0_options_vyos) (PStr "vyos"));
    vm_compute; reflexivity.
Defined.

Lemma set_dhcp_hostname_sticks_witness :
  let st := eth0_boot "gw" in
  let st2 := {| self := self (exec (@_set_dhcp idle_control) st);
                fs := boot_disk "renamed";
                log := [] |} in
  let st3 := exec (@_set_dhcp idle_control) st2 in
  options4 (dhcp4 (self st3)) !! "hostname"
  = Some (PStr (rstrip_nl ("gw" +:+ String nl "")))
  /\ file_writes (added st2 st3)
     = [(conf4 (dhcp4 (self st2)), unlines (conf4_lines (options4 (dhcp4 (self st2)))))]
  /\ conf4_lines (options4 (dhcp4 (self st2))) !! 7%nat
     = Some (host_name_line (rstrip_nl ("gw" +:+ String nl ""))).
Proof.
  cbv zeta.
  apply (@set_dhcp_hostname_sticks idle_control (eth0_boot "gw")
           {| self := self (exec (@_set_dhcp idle_control) (eth0_boot "gw"));
              fs := boot_disk "renamed";
              log := [] |}
           ("gw" +:+ String nl ""));
    try (vm_compute; reflexivity).
  vm_compute. discriminate.
Defined.

Lemma set_dhcp_command_line_witness :
  words (start4_line (dhcp4 (self (eth0_boot "gw"))))
  = start4_args (dhcp4 (self (eth0_boot "gw"))).
Proof.
  apply (@set_dhcp_command_line idle_control (eth0_boot "gw")).
  repeat constructor.
Defined.

Lemma set_dhcpv6_missing_key_early_witness :
  @_set_dhcpv6 idle_control (eth1_with_options ∅)
  = (Raise (KeyError "dhcpv6_prm_only"), eth1_with_options ∅).
Proof.
  apply (@set_dhcpv6_missing_key_early idle_control (eth1_with_options ∅)).
  left. split; vm_compute; reflexivity.
Defined.

Lemma set_dhcpv6_missing_key_late_witness :
  let st := eth1_with_options {[ "dhcpv6_prm_only" := PBool false ]} in
  let e := dhcp6 (self st) in
  let text := unlines (conf6_lines (options6 e)) in
  eval (@_set_dhcpv6 idle_control) st = Raise (KeyError "dhcpv6_temporary")
  /\ added st (exec (@_set_dhcpv6 idle_control) st)
     = [EvWrite (conf6 e) text; EvSysfs (accept_ra6 e) 0].
Proof.
  cbv zeta.
  apply (@set_dhcpv6_missing_key_late idle_control
           (eth1_with_options {[ "dhcpv6_prm_only" := PBool false ]})
           (PBool false) true);
    vm_compute; reflexivity.
Defined.

Lemma set_dhcpv6_effects_in_order_witness :
  let st := eth1_with_flags false true in
  let e := dhcp6 (self st) in
  let text := unlines (conf6_lines (options6 e)) in
  let line := start6_line e (truthy (PBool false)) (truthy (PBool true)) in
  let w := @write_sysfs_effect idle_control (accept_ra6 e) 0
             (fs (written (conf6 e) text st)) in
  added st (exec (@_set_dhcpv6 idle_control) st)
  = [EvWrite (conf6 e) text; EvSysfs (accept_ra6 e) 0; EvCmd line]
  /\ eval (@_set_dhcpv6 idle_control) st = (@cmd_effect idle_control line w.2).1
  /\ self (exec (@_set_dhcpv6 idle_control) st) = self st.
Proof.
  cbv zeta.
  apply (@set_dhcpv6_effects_in_order idle_control (eth1_with_flags false true)
           (PBool false) (PBool true) true);
    vm_compute; reflexivity.
Defined.

Lemma set_dhcpv6_unwritable_conf_witness :
  let st := fresh "eth1" readonly6_disk in
  @_set_dhcpv6 idle_control st = (Raise (OSError (conf6 (dhcp6 (self st)))), st).
Proof.
  cbv zeta.
  apply (@set_dhcpv6_unwritable_conf idle_control (fresh "eth1" readonly6_disk)
           (PBool false) (PBool false));
    vm_compute; reflexivity.
Defined.

Lemma set_dhcpv6_sysfs_failure_witness :
  let st := eth1_with_flags true false in
  let e := dhcp6 (self st) in
  let text := unlines (conf6_lines (options6 e)) in
  eval (@_set_dhcpv6 failing_sysfs_control) st
  = Raise (ExternalError "sysfs write failed")
  /\ added st (exec (@_set_dhcpv6 failing_sysfs_control) st)
     = [EvWrite (conf6 e) text; EvSysfs (accept_ra6 e) 0].
Proof.
  cbv zeta.
  apply (@set_dhcpv6_sysfs_failure failing_sysfs_control (eth1_with_flags true false)
           (PBool true) (PBool false) (ExternalError "sysfs write failed"));
    vm_compute; reflexivity.
Defined.

Lemma set_dhcpv6_accept_ra_write_witness :
  let st := eth1_with_flags true false in
  let e := dhcp6 (self st) in
  "/proc/sys/net/ipv6/conf/eth1/accept_ra" = accept_ra6 e /\ 0%Z = 0%Z
  /\ exists rest,
       added st (exec (@_set_dhcpv6 idle_control) st)
       = EvWrite (conf6 e) (unlines (conf6_lines (options6 e)))
         :: EvSysfs (accept_ra6 e) 0 :: rest.
Proof.
  cbv zeta.
  apply (@set_dhcpv6_accept_ra_write idle_control (eth1_with_flags true false)
           "/proc/sys/net/ipv6/conf/eth1/accept_ra" 0%Z).
  vm_compute. left.
Defined.

Lemma del_dhcp_release_line_witness :
  let st := fresh "eth0" running4_disk in
  let e := dhcp4 (self st) in
  invocations (added st (exec (@_del_dhcp failing_cmd_control) st)) = [release4_line e]
  /\ words (release4_line e) = release4_args e.
Proof.
  cbv zeta.
  destruct (@del_dhcp_release_line failing_cmd_control (fresh "eth0" running4_disk))
    as [Hline Hwords].
  - vm_compute. reflexivity.
  - split; [exact Hline|]. apply Hwords. repeat constructor.
Defined.

Lemma stop_call_failure_skips_cleanup_witness :
  let st := fresh "eth0" running4_disk in
  eval (@stop failing_cmd_control V4) st = Raise (ExternalError "command failed")
  /\ fs (exec (@stop failing_cmd_control V4) st) = running4_disk
  /\ removals (added st (exec (@stop failing_cmd_control V4) st)) = [].
Proof.
  cbv zeta.
  apply (@stop_call_failure_skips_cleanup failing_cmd_control V4
           (fresh "eth0" running4_disk));
    vm_compute; reflexivity.
Defined.

Lemma del_dhcpv6_cmd_failure_keeps_accept_ra_witness :
  let st := fresh "eth0" running6_disk in
  eval (@_del_dhcpv6 failing_cmd_control) st = Raise (ExternalError "command failed")
  /\ added st (exec (@_del_dhcpv6 failing_cmd_control) st)
     = [EvCmd (stop6_line (dhcp6 (self st)))].
Proof.
  cbv zeta.
  apply (@del_dhcpv6_cmd_failure_keeps_accept_ra failing_cmd_control
           (fresh "eth0" running6_disk));
    vm_compute; reflexivity.
Defined.

Lemma stop_touches_only_its_paths_witness :
  let st := fresh "eth0" running4_disk in
  nodes (fs (exec (@stop idle_control V4) st)) !! "/var/lib/dhcp/dhclient_eth1.pid"
  = nodes running4_disk !! "/var/lib/dhcp/dhclient_eth1.pid"
  /\ denied (fs (exec (@stop idle_control V4) st)) = denied running4_disk.
Proof.
  cbv zeta.
  apply (@stop_touches_only_its_paths idle_control V4 (fresh "eth0" running4_disk)
           running4_disk "/var/lib/dhcp/dhclient_eth1.pid").
  - vm_compute. reflexivity.
  - vm_compute. reflexivity.
  - intros k. destruct k; vm_compute; discriminate.
Defined.

Lemma stop_aborts_at_refused_conf_witness :
  let st := fresh "eth0" locked_conf_disk in
  eval (@stop idle_control V4) st = Raise (OSError (stored_path (self st) V4 KConf))
  /\ fs (exec (@stop idle_control V4) st) = locked_conf_disk.
Proof.
  cbv zeta.
  apply (@stop_aborts_at_refused_conf idle_control V4 (fresh "eth0" locked_conf_disk)
           locked_conf_disk);
    vm_compute; reflexivity.
Defined.

Lemma stop_is_idempotent_witness :
  let st' := exec (@stop idle_control V4) (fresh "eth0" running4_disk) in
  eval (@stop idle_control V4) st' = Ok tt
  /\ fs (exec (@stop idle_control V4) st') = fs st'
  /\ invocations (added st' (exec (@stop idle_control V4) st')) = []
  /\ sysfs_writes (added st' (exec (@stop idle_control V4) st')) = [].
Proof.
  cbv zeta.
  apply (@stop_is_idempotent idle_control V4 (fresh "eth0" running4_disk)).
  vm_compute. reflexivity.
Defined.


Lemma fresh_v6_start_has_no_flags_witness :
  let st := fresh "eth1" (boot_disk "gw") in
  let e := dhcp6 (__init__ "eth1") in
  invocations (added st (exec (@_set_dhcpv6 idle_control) st))
  = [start6_line e false false]
  /\ words (start6_line e false false) = start6_fixed_args e ++ ["eth1"].
Proof.
  cbv zeta.
  destruct (@fresh_v6_start_has_no_flags idle_control "eth1"
              (fresh "eth1" (boot_disk "gw")) true) as [Hline Hwords].
  - reflexivity.
  - vm_compute. reflexivity.
  - vm_compute. reflexivity.
  - split; [exact Hline|]. apply Hwords. vm_compute. reflexivity.
Defined.

Lemma accept_ra_path_apart_witness :
  accept_ra6 (dhcp6 (__init__ "eth0")) <> stored_path (__init__ "eth0") V6 KPid
  /\ "eth0" = "eth0".
Proof.
  destruct (accept_ra_path_apart "eth0" "eth0" V6 KPid) as [Hne Hinj].
  split; [exact Hne|]. apply Hinj. reflexivity.
Defined.

Lemma render_v6_only_intf_witness :
  render template_v6 (options6 (dhcp6 (self (eth1_with_flags true false))))
  = render template_v6 (options6 (dhcp6 (__init__ "eth1")))
  /\ render template_v6 (options6 (dhcp6 (self (eth1_with_flags true false))))
     = Ok (unlines (conf6_lines (options6 (dhcp6 (self (eth1_with_flags true false)))))).
Proof.
  apply (render_v6_only_intf (options6 (dhcp6 (self (eth1_with_flags true false))))
           (options6 (dhcp6 (__init__ "eth1")))).
  vm_compute. reflexivity.
Defined.

Lemma render_v4_missing_option_witness :
  render template_v4 {[ "intf" := PStr "eth0"; "hostname" := PStr "gw" ]}
  = Ok (unlines (conf4_lines {[ "intf" := PStr "eth0"; "hostname" := PStr "gw" ]}))
  /\ List.filter (line_starts (option_statement VendorClassId))
       (conf4_lines {[ "intf" := PStr "eth0"; "hostname" := PStr "gw" ]}) = [].
Proof.
  apply (render_v4_missing_option VendorClassId
           {[ "intf" := PStr "eth0"; "hostname" := PStr "gw" ]}).
  vm_compute. reflexivity.
Defined.

Lemma v6_cycle_toggles_accept_ra_witness :
  let st := eth1_with_flags true false in
  let e := dhcp6 (self st) in
  let st2 := exec (@_del_dhcpv6 pidfile_control) (exec (@_set_dhcpv6 pidfile_control) st) in
  sysfs_writes (added st st2) = [(accept_ra6 e, 0%Z); (accept_ra6 e, 1%Z)]
  /\ invocations (added st st2)
     = [start6_line e (truthy (PBool true)) (truthy (PBool false)); stop6_line e].
Proof.
  cbv zeta.
  apply (@v6_cycle_toggles_accept_ra pidfile_control (eth1_with_flags true false)
           (PBool true) (PBool false) true
           (fs (exec (@_set_dhcpv6 pidfile_control) (eth1_with_flags true false))));
    vm_compute; reflexivity.
Defined.

(** [eth0] whose two entries hold one dict, the hostname file holding
    [gw]: after the v4 start the paths are as before, the entries still
    hold one dict, and the hostname read shows in the v6 options too.  With
    the two dicts of the constructor the v6 options stay as they were. *)
Lemma methods_keep_stored_paths_witness :
  let st := eth0_one_dict "gw" in
  let st' := exec (@start idle_control V4) st in
  (same_paths (self st) (self st')
   /\ shared_options (self st') = true
   /\ options6 (dhcp6 (self st')) = options4 (dhcp4 (self st')))
  /\ options6 (dhcp6 (self (exec (@start idle_control V4) (eth0_boot "gw"))))
     = options6 (dhcp6 (__init__ "eth0")).
Proof.
  cbv zeta. split.
  - destruct (@methods_keep_stored_paths idle_control V4 (eth0_one_dict "gw"))
      as (Hsp & Hsh & _ & Hag & _).
    split; [exact Hsp|]. split; [exact Hsh|].
    symmetry. apply Hag; [intros _; vm_compute; reflexivity|].
    rewrite Hsh. vm_compute. reflexivity.
  - destruct (@methods_keep_stored_paths idle_control V4 (eth0_boot "gw"))
      as (_ & _ & H6 & _).
    apply H6. vm_compute. reflexivity.
Defined.

(** The value the reading of the hostname leaves in the v6 options of that
    object. *)
Example one_dict_hostname_in_v6_options :
  let st' := exec (@_set_dhcp idle_control) (eth0_one_dict "gw") in
  eval get_dhcpv6_options st' = eval get_dhcp_options st'
  /\ options6 (dhcp6 (self st')) !! "hostname" = Some (PStr "gw")
  /\ options6 (dhcp6 (self (eth0_one_dict "gw"))) !! "hostname" = Some (PStr "").
Proof. vm_compute. done. Qed.
